(** * lighthouse-ci-action: the reporting pipeline of [src/output.js]

    A shallow embedding of the output module of the action: the grouping of
    assertion results, the archiving of raw Lighthouse results as gists, the
    resolution of the "what changed" link, the formatting of attachments and
    the dispatch to the Slack and GitHub channels.

    JavaScript strings are [string]s, arrays are [list]s, objects with
    optional properties are records with [option] fields ([None] is
    [undefined]), and the asynchronous, effectful functions live in a small
    monad that records the calls made to the outside world and whether the
    promise resolves or rejects. *)

From Stdlib Require Import String Ascii List ZArith Lia Bool Arith.
From Stdlib Require Import DecimalString DecimalNat Permutation.
Import ListNotations.

Local Open Scope list_scope.
Local Open Scope string_scope.

(** ** JavaScript string and array primitives *)

Module JS.

(** The line feed written [\n] in the source. *)
Definition LF : string := String "010"%char EmptyString.

(** A string is truthy when it is not empty. *)
Definition truthy (s : string) : bool :=
  match s with
  | EmptyString => false
  | String _ _ => true
  end.

(** An optional string ([undefined] or a string) is truthy when it is a
    non-empty string. *)
Definition truthy_opt (o : option string) : bool :=
  match o with
  | Some s => truthy s
  | None => false
  end.

(** [s.split(sep)] for a one-character separator: never the empty array;
    the empty string gives one empty piece. *)
Fixpoint split (sep : ascii) (s : string) : list string :=
  match s with
  | EmptyString => [EmptyString]
  | String c s' =>
      if Ascii.eqb c sep then EmptyString :: split sep s'
      else match split sep s' with
           | [] => [String c EmptyString]
           | piece :: pieces => String c piece :: pieces
           end
  end.

(** [arr.join(sep)]. *)
Definition join (sep : string) (l : list string) : string :=
  String.concat sep l.

(** [String(arr)] and [`${arr}`] for an array of strings: the elements
    joined by commas. *)
Definition array_toString (l : list string) : string := join "," l.

(** [`${n}`] for a natural number. *)
Definition nat_toString (n : nat) : string :=
  NilZero.string_of_uint (Nat.to_uint n).

(** [`${x}`] for a value that may be [undefined]. *)
Definition template {A : Type} (show : A -> string) (o : option A) : string :=
  match o with
  | Some a => show a
  | None => "undefined"
  end.

(** [s.startsWith(p)], used to spell out the regular expressions. *)
Fixpoint startsWith (p s : string) : bool :=
  match p, s with
  | EmptyString, _ => true
  | String a p', String b s' => Ascii.eqb a b && startsWith p' s'
  | String _ _, EmptyString => false
  end.

(** [s.substring(n)]. *)
Fixpoint drop (n : nat) (s : string) : string :=
  match n, s with
  | O, _ => s
  | S n', String _ s' => drop n' s'
  | S _, EmptyString => EmptyString
  end.

(** [s.includes(p)]. *)
Fixpoint includes (p s : string) : bool :=
  startsWith p s ||
  match s with
  | EmptyString => false
  | String _ s' => includes p s'
  end.

Definition is_digit (c : ascii) : bool :=
  let n := nat_of_ascii c in ((48 <=? n) && (n <=? 57))%nat.

(** The class [\w]: letters, digits and the underscore. *)
Definition is_word (c : ascii) : bool :=
  let n := nat_of_ascii c in
  is_digit c || ((65 <=? n) && (n <=? 90))%nat
  || ((97 <=? n) && (n <=? 122))%nat || (n =? 95)%nat.

(** The longest prefix whose characters satisfy [p], and the rest. *)
Fixpoint span (p : ascii -> bool) (s : string) : string * string :=
  match s with
  | EmptyString => (EmptyString, EmptyString)
  | String c s' =>
      if p c then let (a, b) := span p s' in (String c a, b)
      else (EmptyString, s)
  end.

(** The white space removed by [trim] (the ASCII part of it). *)
Definition is_space (c : ascii) : bool :=
  let n := nat_of_ascii c in
  ((n =? 32) || ((9 <=? n) && (n <=? 13)))%nat.

Fixpoint trimStart (s : string) : string :=
  match s with
  | EmptyString => EmptyString
  | String c s' => if is_space c then trimStart s' else s
  end.

Fixpoint trimEnd (s : string) : string :=
  match s with
  | EmptyString => EmptyString
  | String c s' =>
      match trimEnd s' with
      | EmptyString => if is_space c then EmptyString else String c EmptyString
      | t => String c t
      end
  end.

(** [s.trim()]. *)
Definition trim (s : string) : string := trimEnd (trimStart s).

(** [_.find(arr, p)]: the first element satisfying [p], or [undefined]. *)
Definition find {A : Type} (p : A -> bool) (l : list A) : option A :=
  List.find p l.

(** [_.head(arr)]. *)
Definition head {A : Type} (l : list A) : option A :=
  match l with
  | [] => None
  | a :: _ => Some a
  end.

(** [_.get(o, key, dflt)] once the property has been read: the default
    replaces [undefined]. *)
Definition get_or {A : Type} (o : option A) (dflt : A) : A :=
  match o with
  | Some a => a
  | None => dflt
  end.

End JS.

(** ** Data model (the typedefs at the top of the module) *)

(** [LHResult]: one assertion result of the audit tool. *)
Record LHResult := mkLHResult {
  auditId : string;
  auditProperty : string;
  auditTitle : string;
  expected : string;
  operator : string;
  actual : string;
  url : string
}.

(** [Gist]: the reference to an archived report; every property is
    optional and [{}] has none. *)
Record Gist := mkGist {
  gist_url : option string;
  gist_id : option (list string);
  gist_sha : option string
}.

Definition emptyGist : Gist := mkGist None None None.

(** [_.isEmpty(gist)]: no own property. *)
Definition isEmpty (g : Gist) : bool :=
  match gist_url g, gist_id g, gist_sha g with
  | None, None, None => true
  | _, _, _ => false
  end.

(** [ChangesURL]. *)
Record ChangesURL := mkChangesURL {
  sha : string;
  pullRequest : string
}.

(** A rendered field of a section. *)
Record Field := mkField {
  f_title : string;
  f_value : string
}.

(** A Slack attachment as the module builds them: the header, a section,
    a report link or the empty object, told apart by the properties
    present. *)
Record Attachment := mkAttachment {
  a_pretext : option string;
  a_title : option string;
  a_title_link : option string;
  a_text : option string;
  a_color : option string;
  a_fields : option (list Field)
}.

Definition emptyAttachment : Attachment :=
  mkAttachment None None None None None None.

(** [LHResultsByURL]: the object built by [_.groupBy], as its properties in
    insertion order. *)
Definition LHResultsByURL := list (string * list LHResult).

(** ** Object property order *)

(** A property name is an array index when it is the canonical decimal
    text of an integer below [2^32 - 1]. *)
Definition array_index (k : string) : option N :=
  match NilZero.uint_of_string k with
  | Some d =>
      let n := N.of_uint d in
      if String.eqb (NilZero.string_of_uint (N.to_uint n)) k
         && (n <? 4294967295)%N
      then Some n else None
  | None => None
  end.

Fixpoint insert_by_index {A : Type} (n : N) (a : A) (l : list (N * A))
  : list (N * A) :=
  match l with
  | [] => [(n, a)]
  | (m, b) :: l' =>
      if (n <? m)%N then (n, a) :: l else (m, b) :: insert_by_index n a l'
  end.

(** [Object.values(o)]: the values of the array-index properties in
    ascending order, then the others in insertion order. *)
Definition Object_values {A : Type} (o : list (string * A)) : list A :=
  let indexed :=
    fold_left (fun acc kv =>
                 match array_index (fst kv) with
                 | Some n => insert_by_index n (snd kv) acc
                 | None => acc
                 end) o [] in
  let named :=
    filter (fun kv => match array_index (fst kv) with
                      | Some _ => false
                      | None => true
                      end) o in
  (map snd indexed ++ map snd named)%list.

(** ** Formatting *)

(** [getLHReportURL]. *)
Definition getLHReportURL (gist : Gist) : string :=
  if isEmpty gist then EmptyString
  else "https://googlechrome.github.io/lighthouse/viewer/?gist="
         ++ JS.template JS.array_toString (gist_id gist) ++ "/"
         ++ JS.template (fun s => s) (gist_sha gist).

(** The colour of every attachment of a run. *)
Definition statusColor (status : Z) : string :=
  if (status =? 0)%Z then "good" else "danger".

(** The conclusion of a run. *)
Definition statusConclusion (status : Z) : string :=
  if (status =? 0)%Z then "success" else "failure".

(** The arrow function mapped over a group in [formatAssertResults]. *)
Definition formatResult (res : LHResult) : Field :=
  {| f_title := auditId res ++ "." ++ auditProperty res;
     f_value := auditTitle res ++ " " ++ JS.LF ++ " _Expected " ++ expected res
                  ++ " "
                  ++ (if String.eqb (operator res) "<=" then " less then"
                      else " greater than")
                  ++ " actual " ++ actual res ++ "_" |}.

(** The field pushed after the first two results of a non-empty group. *)
Definition ellipsisField : Field := {| f_title := "..."; f_value := EmptyString |}.

(** [resultUrl] in the reducer. *)
Definition resultUrlOf (groupedResult : list LHResult) : string :=
  JS.get_or (option_map url (JS.head groupedResult)) EmptyString.

(** The predicate [({ url }) => url === resultUrl]. *)
Definition hasUrl (resultUrl : string) (gist : Gist) : bool :=
  match gist_url gist with
  | Some u => String.eqb u resultUrl
  | None => false
  end.

(** [gist] in the reducer: the first reference whose [url] is the group's,
    or [{}]. *)
Definition gistFor (gists : list Gist) (resultUrl : string) : Gist :=
  JS.get_or (JS.find (hasUrl resultUrl) gists) emptyGist.

(** [fields] in the reducer: [results.slice(0, 2)], then the ellipsis when
    the slice is not empty. *)
Definition fieldsOf (groupedResult : list LHResult) : list Field :=
  let results := map formatResult groupedResult in
  let fields := firstn 2 results in
  if (0 <? length fields)%nat then (fields ++ [ellipsisField])%list else fields.

(** [reportUrlField] in the reducer. *)
Definition reportUrlFieldOf (color : string) (gist : Gist) : Attachment :=
  let reportURL := getLHReportURL gist in
  if JS.truthy reportURL
  then {| a_pretext := None;
          a_title := Some "View Detailed Lighthouse Report";
          a_title_link := Some reportURL;
          a_text := None;
          a_color := Some color;
          a_fields := None |}
  else emptyAttachment.

(** The section pushed for a group. *)
Definition sectionOf (color : string) (groupedResult : list LHResult)
  : Attachment :=
  {| a_pretext := None;
     a_title := None;
     a_title_link := None;
     a_text := Some (JS.nat_toString (length groupedResult + 1)
                       ++ " result(s) for " ++ resultUrlOf groupedResult);
     a_color := Some color;
     a_fields := Some (fieldsOf groupedResult) |}.

(** [formatAssertResults]: the reducer pushes two attachments per group. *)
Definition formatAssertResults (groupedResults : LHResultsByURL) (status : Z)
  (gists : list Gist) : list Attachment :=
  let color := statusColor status in
  fold_left
    (fun acc groupedResult =>
       let gist := gistFor gists (resultUrlOf groupedResult) in
       ((acc ++ [sectionOf color groupedResult])
          ++ [reportUrlFieldOf color gist])%list)
    (Object_values groupedResults) [].

(** [getSummaryMarkdownOutput]: the title and the Markdown summary of the
    check run. *)
Record CheckOutput := mkCheckOutput {
  co_title : string;
  co_summary : string
}.

(** [fieldsTemplate]. *)
Definition fieldsTemplate (a : Attachment) : string :=
  match a_fields a with
  | Some fields =>
      JS.join JS.LF
        (map (fun field =>
                JS.trim ("**" ++ f_title field ++ "**" ++ JS.LF ++ f_value field))
             fields)
  | None =>
      if JS.truthy_opt (a_title_link a)
      then "[" ++ JS.template (fun s => s) (a_title a) ++ "]("
             ++ JS.template (fun s => s) (a_title_link a) ++ ")"
      else JS.LF
  end.

(** [resultTitle]. *)
Definition resultTitle (a : Attachment) : string :=
  if JS.truthy_opt (a_text a)
  then "### " ++ JS.template (fun s => s) (a_text a)
  else EmptyString.

(** [summaryResultsTempalte] (the name is the source's). *)
Definition summaryResultsTempalte (summaryResults : list Attachment) : string :=
  JS.join JS.LF
    (map (fun result =>
            JS.trim (resultTitle result ++ JS.LF ++ fieldsTemplate result))
         summaryResults).

Definition getSummaryMarkdownOutput (status : Z) (changesURL : ChangesURL)
  (groupedResults : LHResultsByURL) (gists : list Gist) : CheckOutput :=
  let conclusion := statusConclusion status in
  let title :=
    if JS.truthy (pullRequest changesURL)
    then "Pull Request " ++ conclusion else "Changes " ++ conclusion in
  let changesLink :=
    if JS.truthy (pullRequest changesURL)
    then "[View on GitHub](" ++ pullRequest changesURL ++ ")"
    else "[View SHA Changes](" ++ sha changesURL ++ ")" in
  let summaryResults := formatAssertResults groupedResults status gists in
  {| co_title := title;
     co_summary := JS.LF ++ changesLink ++ JS.LF ++ JS.LF
                     ++ summaryResultsTempalte summaryResults ++ JS.LF |}.

(** ** Grouping *)

(** [_.groupBy(assertionResults, 'url')]: a result joins the group of its
    url, a new url opens a group after the existing ones. *)
Fixpoint groupBy_add (r : LHResult) (groups : LHResultsByURL) : LHResultsByURL :=
  match groups with
  | [] => [(url r, [r])]
  | (k, g) :: groups' =>
      if String.eqb k (url r) then (k, (g ++ [r])%list) :: groups'
      else (k, g) :: groupBy_add r groups'
  end.

Definition groupBy (assertionResults : list LHResult) : LHResultsByURL :=
  fold_left (fun groups r => groupBy_add r groups) assertionResults [].

(** ** File names of the raw results *)

(** A match of [/lhr-\d+\.json/] starting at the head of [s]. *)
Definition match_lhr_here (s : string) : option string :=
  if JS.startsWith "lhr-" s then
    let (digits, rest) := JS.span JS.is_digit (JS.drop 4 s) in
    if JS.truthy digits && JS.startsWith ".json" rest
    then Some ("lhr-" ++ digits ++ ".json")
    else None
  else None.

(** [fileName.match(/lhr-\d+\.json/g)], reduced to its first element: the
    leftmost match, anywhere in the name. *)
Fixpoint match_lhr (fileName : string) : option string :=
  match match_lhr_here fileName with
  | Some m => Some m
  | None =>
      match fileName with
      | EmptyString => None
      | String _ rest => match_lhr rest
      end
  end.

(** [url.replace(/(^\w+:|^)\/\//, '')]: a leading scheme and [//], or a
    leading [//], is removed. *)
Definition stripProtocol (url : string) : string :=
  let (scheme, rest) := JS.span JS.is_word url in
  if JS.truthy scheme && JS.startsWith "://" rest then JS.drop 3 rest
  else if JS.startsWith "//" url then JS.drop 2 url
  else url.

(** [path.join(a, b)] for a normalised directory that does not end with a
    slash and a plain file name. *)
Definition path_join (a b : string) : string := a ++ "/" ++ b.

(** ** The outside world *)

(** What the process reads from its environment when the module loads. *)
Record Env := mkEnv {
  GITHUB_REPOSITORY : option string;
  GITHUB_SHA : option string;
  cwd : string
}.

(** The configuration exported by [./input]. *)
Record Input := mkInput {
  logLevel : string;
  slackWebhookUrl : option string;
  applicationGithubToken : option string;
  personalGithubToken : option string;
  githubNotificationEnabled : bool;
  slackNotificationEnabled : bool
}.

(** An element of [gists.data]: its id and [Object.keys(gist.files)]. *)
Record GistEntry := mkGistEntry {
  entry_id : string;
  entry_files : list string
}.

(** The [data] of the answer to [gists.create] and [gists.update]. *)
Record GistData := mkGistData {
  data_id : option string;
  data_history : list (option string)
}.

(** An element of [pulls.data]. *)
Record Pull := mkPull {
  head_sha : option string;
  html_url : option string
}.

(** The parsed raw result, of which only [requestedUrl] is read. *)
Record LHR := mkLHR {
  requestedUrl : option string
}.

(** [gistParams]. *)
Record GistParams := mkGistParams {
  gp_gist_id : option string;
  gp_files : list (string * string)
}.

(** [checkBody]. *)
Record CheckBody := mkCheckBody {
  cb_owner : option string;
  cb_repo : option string;
  cb_head_sha : string;
  cb_name : string;
  cb_status : string;
  cb_conclusion : string;
  cb_output : CheckOutput
}.

(** The errors a promise of the module rejects with. *)
Inductive Error :=
| SyntaxError (text : string)
| FileError (path : string)
| RequestError (method : string).

(** The file system, the JSON parser and the remote services, as the
    answers they give; [None] and [false] are failures. *)
Record World := mkWorld {
  existsSync : string -> bool;
  readFile : string -> option string;
  readdirSync : string -> option (list string);
  JSON_parse_results : string -> option (list LHResult);
  JSON_parse_lhr : string -> option LHR;
  gists_list : string -> option (list GistEntry);
  gists_create : string -> GistParams -> option GistData;
  gists_update : string -> GistParams -> option GistData;
  pulls_list : string -> option string -> option string -> option (list Pull);
  webhook_send : string -> list Attachment -> bool;
  checks_createSuite : string -> option string -> option string -> string -> bool;
  checks_create : string -> CheckBody -> bool
}.

(** The calls a run makes, in the order each task makes them. *)
Inductive Event :=
| ConsoleLog (msg : string)
| ConsoleLogError (e : Error)
| ExistsSync (path : string)
| ReadFile (path : string)
| ReadDir (path : string)
| GistsList (token : string)
| GistsCreate (token : string) (params : GistParams)
| GistsUpdate (token : string) (params : GistParams)
| PullsList (token : string) (owner repo : option string)
| WebhookSend (url : string) (attachments : list Attachment)
| ChecksCreateSuite (token : string) (owner repo : option string) (head : string)
| ChecksCreate (token : string) (body : CheckBody).

(** ** Promises *)

Inductive Outcome (A : Type) :=
| Resolved (a : A)
| Rejected (e : Error).
Arguments Resolved {A} a.
Arguments Rejected {A} e.

(** A settled promise and the calls made on the way. *)
Definition Promise (A : Type) : Type := Outcome A * list Event.

Definition resolve {A : Type} (a : A) : Promise A := (Resolved a, []).

Definition reject {A : Type} (e : Error) : Promise A := (Rejected e, []).

Definition emit (ev : Event) : Promise unit := (Resolved tt, [ev]).

(** [await]: the rest runs only when the promise resolves. *)
Definition await {A B : Type} (p : Promise A) (k : A -> Promise B) : Promise B :=
  match p with
  | (Resolved a, t) => let (o, t') := k a in (o, (t ++ t')%list)
  | (Rejected e, t) => (Rejected e, t)
  end.

Notation "'let*' x ':=' p 'in' k" := (await p (fun x => k))
  (at level 10, x name, p at level 100, k at level 200).
Notation "p ';;' k" := (await p (fun _ => k))
  (at level 100, k at level 200, right associativity).

(** A call that answers [Some] or fails. *)
Definition request {A : Type} (ev : Event) (answer : option A) (e : Error)
  : Promise A :=
  match answer with
  | Some a => (Resolved a, [ev])
  | None => (Rejected e, [ev])
  end.

(** [Promise.all]: every task is started, so the calls of all of them are
    made; the result rejects when one of them does.  The calls are listed
    task by task and, of several rejections, that of the first task of the
    array is reported: the order in time of the calls of different tasks,
    and which of several rejections comes first, are not modelled, and the
    statements below use the promise through [resolves] and through
    membership in [calls] where more than one task is involved. *)
Fixpoint Promise_all {A : Type} (ps : list (Promise A)) : Promise (list A) :=
  match ps with
  | [] => resolve []
  | (o, t) :: ps' =>
      let (os, ts) := Promise_all ps' in
      (match o, os with
       | Resolved a, Resolved l => Resolved (a :: l)
       | Rejected e, _ => Rejected e
       | Resolved _, Rejected e => Rejected e
       end, (t ++ ts)%list)
  end.

(** [Promise.all] of the three tasks of [run]. *)
Definition Promise_all3 {A B C : Type} (pa : Promise A) (pb : Promise B)
  (pc : Promise C) : Promise (A * B * C) :=
  let '(oa, ta) := pa in
  let '(ob, tb) := pb in
  let '(oc, tc) := pc in
  (match oa, ob, oc with
   | Resolved a, Resolved b, Resolved c => Resolved (a, b, c)
   | Rejected e, _, _ => Rejected e
   | Resolved _, Rejected e, _ => Rejected e
   | Resolved _, Resolved _, Rejected e => Rejected e
   end, (ta ++ tb ++ tc)%list).

(** [Promise.all] of the two channels. *)
Definition Promise_all2 {A B : Type} (pa : Promise A) (pb : Promise B)
  : Promise (A * B) :=
  let '(oa, ta) := pa in
  let '(ob, tb) := pb in
  (match oa, ob with
   | Resolved a, Resolved b => Resolved (a, b)
   | Rejected e, _ => Rejected e
   | Resolved _, Rejected e => Rejected e
   end, (ta ++ tb)%list).

(** [try { ... } catch (e) { console.log(e); throw e }]. *)
Definition logAndRethrow {A : Type} (p : Promise A) : Promise A :=
  match p with
  | (Resolved a, t) => (Resolved a, t)
  | (Rejected e, t) => (Rejected e, (t ++ [ConsoleLogError e])%list)
  end.

Definition outcome {A : Type} (p : Promise A) : Outcome A := fst p.
Definition calls {A : Type} (p : Promise A) : list Event := snd p.

Definition resolves {A : Type} (p : Promise A) : bool :=
  match outcome p with
  | Resolved _ => true
  | Rejected _ => false
  end.

(** ** The module *)

Section Output.

Variable env : Env.
Variable input : Input.
Variable w : World.

(** The constants computed when the module loads. *)
Definition githubRepo : string := JS.get_or (GITHUB_REPOSITORY env) EmptyString.
Definition githubSHA : string := JS.get_or (GITHUB_SHA env) EmptyString.
Definition reportTitle : string := "Lighthouse Report".
Definition resultsDirPath : string := path_join (cwd env) ".lighthouseci".
Definition lhAssertResultsPath : string :=
  path_join resultsDirPath "assertion-results.json".

(** [githubRepo.split('/')[0]] and [[1]]. *)
Definition repoOwner : option string := nth_error (JS.split "/" githubRepo) 0.
Definition repoName : option string := nth_error (JS.split "/" githubRepo) 1.

(** [getGroupedAssertionResultsByURL]; the empty array it returns when the
    file is missing has no property, like the empty object. *)
Definition getGroupedAssertionResultsByURL : Promise LHResultsByURL :=
  emit (ExistsSync lhAssertResultsPath) ;;
  if negb (existsSync w lhAssertResultsPath) then
    emit (ConsoleLog ("No LH Assert results in " ++ lhAssertResultsPath)) ;;
    resolve []
  else
    let* assertionResultsBuffer :=
      request (ReadFile lhAssertResultsPath) (readFile w lhAssertResultsPath)
        (FileError lhAssertResultsPath) in
    match JSON_parse_results w assertionResultsBuffer with
    | Some assertionResults => resolve (groupBy assertionResults)
    | None => reject (SyntaxError assertionResultsBuffer)
    end.

(** [getLHRNameFromPath]. *)
Definition getLHRNameFromPath (path : string) : Promise (list string) :=
  let* dir := request (ReadDir path) (readdirSync w path) (FileError path) in
  resolve
    (map (fun fileName => JS.get_or (match_lhr fileName) EmptyString)
         (filter (fun fileName => match match_lhr fileName with
                                  | Some _ => true
                                  | None => false
                                  end) dir)).

(** The name under which the raw result of [url] is archived. *)
Definition gistNameOf (url : string) : string :=
  let urlPrefixName := stripProtocol url in
  "lhci-action-lhr-" ++ JS.join "-" (JS.split "/" githubRepo) ++ "-"
    ++ JS.join "-" (JS.split "/" urlPrefixName) ++ ".json".

(** The predicate given to [find] over [gists.data]: the number of file
    names equal to [gistName] is not zero. *)
Definition holdsName (gistName : string) (gist : GistEntry) : bool :=
  negb (length (filter (fun filename => String.eqb filename gistName)
                       (entry_files gist)) =? 0)%nat.

(** [uploadResultToGist]. *)
Definition uploadResultToGist (githubToken : option string)
  (resultPath : string) : Promise Gist :=
  if negb (JS.truthy_opt githubToken) || negb (JS.truthy resultPath) then
    resolve emptyGist
  else
    let token := JS.get_or githubToken EmptyString in
    let file := path_join resultsDirPath resultPath in
    let* resultsBuffer := request (ReadFile file) (readFile w file)
                            (FileError file) in
    match JSON_parse_lhr w resultsBuffer with
    | None => reject (SyntaxError resultsBuffer)
    | Some results =>
        let url := JS.get_or (requestedUrl results) EmptyString in
        let gistName := gistNameOf url in
        let* gists := request (GistsList token) (gists_list w token)
                        (RequestError "gists.list") in
        let existingGist := JS.find (holdsName gistName) gists in
        let gistParams :=
          {| gp_gist_id := option_map entry_id existingGist;
             gp_files := [(gistName, resultsBuffer)] |} in
        let* gist :=
          match existingGist with
          | Some _ =>
              request (GistsUpdate token gistParams)
                (gists_update w token gistParams) (RequestError "gists.update")
          | None =>
              request (GistsCreate token gistParams)
                (gists_create w token gistParams) (RequestError "gists.create")
          end in
        resolve
          {| gist_url := Some url;
             gist_id := Some (JS.split "/" (JS.get_or (data_id gist) EmptyString));
             gist_sha := Some (JS.get_or
                                 (JS.get_or (nth_error (data_history gist) 0) None)
                                 EmptyString) |}
    end.

(** [uploadResultsToGist]. *)
Definition uploadResultsToGist (githubToken : option string)
  : Promise (list Gist) :=
  if negb (JS.truthy_opt githubToken) then resolve [emptyGist]
  else
    let* LHRNamesFromPath := getLHRNameFromPath resultsDirPath in
    Promise_all
      (map (fun LHRNameFromPath => uploadResultToGist githubToken LHRNameFromPath)
           LHRNamesFromPath).

(** The predicate [['head.sha', githubSHA]] given to [find]. *)
Definition headIs (commit : string) (pull : Pull) : bool :=
  match head_sha pull with
  | Some s => String.eqb s commit
  | None => false
  end.

(** [getChangesUrl]. *)
Definition getChangesUrl (githubToken : option string) : Promise ChangesURL :=
  let shaChangesURL :=
    JS.join "/" ["https://github.com"; githubRepo; "commit"; githubSHA] in
  if negb (JS.truthy_opt githubToken) then
    resolve {| pullRequest := EmptyString; sha := shaChangesURL |}
  else
    let token := JS.get_or githubToken EmptyString in
    let* pulls := request (PullsList token repoOwner repoName)
                    (pulls_list w token repoOwner repoName)
                    (RequestError "pulls.list") in
    let pullRequest := JS.find (headIs githubSHA) pulls in
    resolve
      {| pullRequest :=
           JS.get_or (match pullRequest with
                      | Some pull => html_url pull
                      | None => None
                      end) EmptyString;
         sha := shaChangesURL |}.

(** [slackNotification]. *)
Definition slackNotification (status : Z) (slackWebhookUrl : option string)
  (changesURL : ChangesURL) (groupedResults : LHResultsByURL)
  (gists : list Gist) : Promise unit :=
  let slackWebhookUrl := JS.get_or slackWebhookUrl EmptyString in
  emit (ConsoleLog "Running Slack notification") ;;
  let color := statusColor status in
  let conclusion := statusConclusion status in
  let changesTitle :=
    if JS.truthy (pullRequest changesURL)
    then "Pull Request " ++ conclusion ++ " - <" ++ pullRequest changesURL
           ++ " | View on GitHub>"
    else "Changes " ++ conclusion ++ " - <" ++ sha changesURL
           ++ " | View SHA Changes>" in
  let attachments := formatAssertResults groupedResults status gists in
  let payload :=
    {| a_pretext := Some ("GitHub Actions / " ++ reportTitle);
       a_title := Some changesTitle;
       a_title_link := None;
       a_text := None;
       a_color := Some color;
       a_fields := None |} :: attachments in
  request (WebhookSend slackWebhookUrl payload)
    (if webhook_send w slackWebhookUrl payload then Some tt else None)
    (RequestError "webhook.send").

(** [githubNotification]. *)
Definition githubNotification (status : Z) (githubToken : option string)
  (changesURL : ChangesURL) (gists : list Gist)
  (groupedResults : LHResultsByURL) : Promise unit :=
  let githubToken := JS.get_or githubToken EmptyString in
  emit (ConsoleLog "Running Github notification") ;;
  let conclusion := statusConclusion status in
  let checkBody :=
    {| cb_owner := repoOwner;
       cb_repo := repoName;
       cb_head_sha := githubSHA;
       cb_name := reportTitle;
       cb_status := "completed";
       cb_conclusion := conclusion;
       cb_output :=
         getSummaryMarkdownOutput status changesURL groupedResults gists |} in
  request (ChecksCreateSuite githubToken repoOwner repoName githubSHA)
    (if checks_createSuite w githubToken repoOwner repoName githubSHA
     then Some tt else None)
    (RequestError "checks.createSuite") ;;
  request (ChecksCreate githubToken checkBody)
    (if checks_create w githubToken checkBody then Some tt else None)
    (RequestError "checks.create").

(** [shouldRunOutput] in [run]. *)
Definition shouldRunOutput (status : Z) : bool :=
  String.eqb (logLevel input) "info"
  || (String.eqb (logLevel input) "error" && negb (status =? 0)%Z).

Definition slackEnabled : bool :=
  slackNotificationEnabled input && JS.truthy_opt (slackWebhookUrl input).

Definition githubEnabled : bool :=
  githubNotificationEnabled input
  && JS.truthy_opt (applicationGithubToken input).

(** The three tasks awaited together at the start of [run]. *)
Definition gather : Promise (LHResultsByURL * ChangesURL * list Gist) :=
  Promise_all3
    getGroupedAssertionResultsByURL
    (getChangesUrl (personalGithubToken input))
    (uploadResultsToGist (personalGithubToken input)).

(** [run]. *)
Definition run (status : Z) : Promise unit :=
  logAndRethrow
    (if negb (shouldRunOutput status) then resolve tt
     else
       await gather (fun '(groupedResults, changesURL, gists) =>
       if githubEnabled && slackEnabled then
         Promise_all2
           (slackNotification status (slackWebhookUrl input) changesURL
              groupedResults gists)
           (githubNotification status (applicationGithubToken input)
              changesURL gists groupedResults) ;;
         resolve tt
       else if githubEnabled then
         githubNotification status (applicationGithubToken input) changesURL
           gists groupedResults
       else if slackEnabled then
         slackNotification status (slackWebhookUrl input) changesURL
           groupedResults gists
       else resolve tt)).

End Output.

(** ** Sample runs

    A repository, a results directory and two accounts used to exercise
    the definitions: [world0] answers every call, [world_bad] holds a raw
    result that is not JSON. *)

Module Sample.

Definition env0 : Env :=
  {| GITHUB_REPOSITORY := Some "octo/site";
     GITHUB_SHA := Some "abc123";
     cwd := "/work" |}.

Definition res (n : string) : LHResult :=
  {| auditId := "first-contentful-paint";
     auditProperty := "maxNumericValue";
     auditTitle := "First Contentful Paint " ++ n;
     expected := "0.5";
     operator := "<=";
     actual := "0.8";
     url := "https://example.com/a" |}.

Definition resGe : LHResult :=
  {| auditId := "categories";
     auditProperty := "performance";
     auditTitle := "Performance";
     expected := "0.9";
     operator := ">=";
     actual := "0.4";
     url := "https://example.com/a" |}.

Definition results0 : list LHResult := [res "1"; res "2"; res "3"].

Definition quote : string := String "034"%char EmptyString.

Definition lhr_text : string :=
  "{" ++ quote ++ "requestedUrl" ++ quote ++ ":" ++ quote
    ++ "https://example.com/a" ++ quote ++ "}".

Definition parse_lhr (s : string) : option LHR :=
  if String.eqb s lhr_text then Some {| requestedUrl := Some "https://example.com/a" |}
  else if String.eqb s "{}" then Some {| requestedUrl := None |}
  else None.

Definition parse_results (s : string) : option (list LHResult) :=
  if String.eqb s "[3 results]" then Some results0 else None.

Definition files0 (path : string) : option string :=
  if String.eqb path "/work/.lighthouseci/assertion-results.json"
  then Some "[3 results]"
  else if String.eqb path "/work/.lighthouseci/lhr-1.json" then Some lhr_text
  else if String.eqb path "/work/.lighthouseci/lhr-2.json" then Some "{}"
  else if String.eqb path "/work/.lighthouseci/lhr-3.json" then Some "{"
  else None.

Definition name0 : string :=
  "lhci-action-lhr-octo-site-example.com-a.json".

Definition answer0 (p : GistParams) : option GistData :=
  Some {| data_id := Some (JS.get_or (gp_gist_id p) "new1");
          data_history := [Some "v2"; Some "v1"] |}.

Definition world (dir : list string) (entries : list GistEntry)
  (pulls : list Pull) : World :=
  {| existsSync := fun path => match files0 path with
                               | Some _ => true
                               | None => false
                               end;
     readFile := files0;
     readdirSync := fun _ => Some dir;
     JSON_parse_results := parse_results;
     JSON_parse_lhr := parse_lhr;
     gists_list := fun _ => Some entries;
     gists_create := fun _ => answer0;
     gists_update := fun _ => answer0;
     pulls_list := fun _ _ _ => Some pulls;
     webhook_send := fun _ _ => true;
     checks_createSuite := fun _ _ _ _ => true;
     checks_create := fun _ _ => true |}.

Definition entry0 : GistEntry :=
  {| entry_id := "g42"; entry_files := ["notes.txt"; name0] |}.

Definition pull0 : Pull :=
  {| head_sha := Some "abc123";
     html_url := Some "https://github.com/octo/site/pull/7" |}.

Definition world0 : World :=
  world ["lhr-1.json"; "readme.md"] [entry0] [pull0].

Definition world_bad : World :=
  world ["lhr-3.json"; "lhr-1.json"] [] [].

(** A checkout in which the audit tool has written nothing. *)
Definition world_empty : World :=
  {| existsSync := fun _ => false;
     readFile := fun _ => None;
     readdirSync := fun _ => Some [];
     JSON_parse_results := parse_results;
     JSON_parse_lhr := parse_lhr;
     gists_list := fun _ => Some [];
     gists_create := fun _ => answer0;
     gists_update := fun _ => answer0;
     pulls_list := fun _ _ _ => Some [pull0];
     webhook_send := fun _ _ => true;
     checks_createSuite := fun _ _ _ _ => true;
     checks_create := fun _ _ => true |}.

(** A checkout without the directory of the audit tool. *)
Definition world_no_dir : World :=
  {| existsSync := fun _ => false;
     readFile := fun _ => None;
     readdirSync := fun _ => None;
     JSON_parse_results := parse_results;
     JSON_parse_lhr := parse_lhr;
     gists_list := fun _ => Some [];
     gists_create := fun _ => answer0;
     gists_update := fun _ => answer0;
     pulls_list := fun _ _ _ => Some [pull0];
     webhook_send := fun _ _ => true;
     checks_createSuite := fun _ _ _ _ => true;
     checks_create := fun _ _ => true |}.

Definition input0 : Input :=
  {| logLevel := "info";
     slackWebhookUrl := Some "https://hooks.example/T";
     applicationGithubToken := Some "app-token";
     personalGithubToken := Some "pat";
     githubNotificationEnabled := true;
     slackNotificationEnabled := true |}.


End Sample.

(** ** Notions used in the statements *)

(** The two attachments the reducer of [formatAssertResults] pushes for a
    group. *)
Definition blocksOf (status : Z) (gists : list Gist)
  (groupedResult : list LHResult) : list Attachment :=
  [sectionOf (statusColor status) groupedResult;
   reportUrlFieldOf (statusColor status)
     (gistFor gists (resultUrlOf groupedResult))].

(** The viewer address built from the parts of a reference. *)
Definition viewerURL (gist : Gist) : string :=
  "https://googlechrome.github.io/lighthouse/viewer/?gist="
    ++ JS.template JS.array_toString (gist_id gist) ++ "/"
    ++ JS.template (fun s => s) (gist_sha gist).

(** Every group built by [groupBy] has a member, and its members have the
    url the group is filed under. *)
Definition wellGrouped (groups : LHResultsByURL) : Prop :=
  forall k g, In (k, g) groups ->
              g <> [] /\ Forall (fun r => url r = k) g.

(** Exactly one of the two links is not empty. *)
Definition exactlyOneLink (c : ChangesURL) : bool :=
  xorb (JS.truthy (sha c)) (JS.truthy (pullRequest c)).

(** The calls made by the channel adapters [slackNotification] and
    [githubNotification]: their log line and their requests. *)
Definition isChannelCall (ev : Event) : bool :=
  match ev with
  | WebhookSend _ _ => true
  | ChecksCreateSuite _ _ _ _ => true
  | ChecksCreate _ _ => true
  | ConsoleLog msg =>
      String.eqb msg "Running Slack notification"
      || String.eqb msg "Running Github notification"
  | _ => false
  end.

(** No call of the list is made by a channel adapter. *)
Definition quiet (l : list Event) : Prop :=
  Forall (fun ev => isChannelCall ev = false) l.

(** The two channels accept whatever is sent to them. *)
Definition channelsAnswer (w : World) : Prop :=
  (forall u payload, webhook_send w u payload = true)
  /\ (forall t owner repo head, checks_createSuite w t owner repo head = true)
  /\ (forall t body, checks_create w t body = true).

(** Every character of the string satisfies [p]. *)
Fixpoint allChars (p : ascii -> bool) (s : string) : bool :=
  match s with
  | EmptyString => true
  | String c s' => p c && allChars p s'
  end.

(** The property name starts with a decimal digit. *)
Definition startsWithDigit (k : string) : bool :=
  match k with
  | EmptyString => false
  | String c _ => JS.is_digit c
  end.

(** The names [lhr-<digits>.json] of the raw results. *)
Definition isLHRName (name : string) : Prop :=
  exists digits,
    name = "lhr-" ++ digits ++ ".json"
    /\ JS.truthy digits = true
    /\ allChars JS.is_digit digits = true.

(** The calls that need the personal credential: the listing of the raw
    results and the requests to the gists and the pull requests. *)
Definition isArchiveCall (ev : Event) : bool :=
  match ev with
  | ReadDir _ => true
  | GistsList _ => true
  | GistsCreate _ _ => true
  | GistsUpdate _ _ => true
  | PullsList _ _ _ => true
  | _ => false
  end.

(** The line logged by the handler of [run]. *)
Definition isErrorLog (ev : Event) : bool :=
  match ev with
  | ConsoleLogError _ => true
  | _ => false
  end.

(** What [groupBy] has built after the results [seen]. *)
Definition groupedSoFar (seen : list LHResult) (groups : LHResultsByURL) : Prop :=
  NoDup (map fst groups)
  /\ (forall k g, In (k, g) groups ->
                  g <> [] /\ g = filter (fun r => String.eqb (url r) k) seen)
  /\ (forall r, In r seen -> In (url r) (map fst groups))
  /\ Permutation (concat (map snd groups)) seen.

(** The choice of the channels at the end of [run], for the values the
    three tasks resolved with. *)
Definition dispatch (env : Env) (input : Input) (w : World) (status : Z)
  (groupedResults : LHResultsByURL) (changesURL : ChangesURL)
  (gists : list Gist) : Promise unit :=
  if githubEnabled input && slackEnabled input then
    Promise_all2
      (slackNotification w status (slackWebhookUrl input) changesURL
         groupedResults gists)
      (githubNotification env w status (applicationGithubToken input)
         changesURL gists groupedResults) ;;
    resolve tt
  else if githubEnabled input then
    githubNotification env w status (applicationGithubToken input) changesURL
      gists groupedResults
  else if slackEnabled input then
    slackNotification w status (slackWebhookUrl input) changesURL
      groupedResults gists
  else resolve tt.

(** The [try] block of [run]. *)
Definition runBody (env : Env) (input : Input) (w : World) (status : Z)
  : Promise unit :=
  if negb (shouldRunOutput input status) then resolve tt
  else
    await (gather env input w)
      (fun '(groupedResults, changesURL, gists) =>
         dispatch env input w status groupedResults changesURL gists).

(** The first attachment of the Slack message. *)
Definition slackHeader (status : Z) (changesURL : ChangesURL) : Attachment :=
  {| a_pretext := Some "GitHub Actions / Lighthouse Report";
     a_title :=
       Some (if JS.truthy (pullRequest changesURL)
             then "Pull Request " ++ statusConclusion status ++ " - <"
                    ++ pullRequest changesURL ++ " | View on GitHub>"
             else "Changes " ++ statusConclusion status ++ " - <"
                    ++ sha changesURL ++ " | View SHA Changes>");
     a_title_link := None;
     a_text := None;
     a_color := Some (statusColor status);
     a_fields := None |}.

(** The check run posted to GitHub. *)
Definition checkBodyOf (env : Env) (status : Z) (changesURL : ChangesURL)
  (gists : list Gist) (groupedResults : LHResultsByURL) : CheckBody :=
  {| cb_owner := repoOwner env;
     cb_repo := repoName env;
     cb_head_sha := githubSHA env;
     cb_name := "Lighthouse Report";
     cb_status := "completed";
     cb_conclusion := statusConclusion status;
     cb_output :=
       getSummaryMarkdownOutput status changesURL groupedResults gists |}.

(** The string with every slash turned into a dash. *)
Fixpoint dashed (s : string) : string :=
  match s with
  | EmptyString => EmptyString
  | String c s' =>
      String (if Ascii.eqb c "/" then "-"%char else c) (dashed s')
  end.

(** * Properties of the formatter *)

Section FormatFacts.

Variable status : Z.
Variable gists : list Gist.

Lemma reducer_appends (groups : list (list LHResult)) (acc : list Attachment) :
  fold_left
    (fun acc groupedResult =>
       ((acc ++ [sectionOf (statusColor status) groupedResult])
          ++ [reportUrlFieldOf (statusColor status)
                (gistFor gists (resultUrlOf groupedResult))])%list)
    groups acc
  = (acc ++ flat_map (blocksOf status gists) groups)%list.
Proof.
  revert acc.
  induction groups as [|g groups IH]; intro acc; simpl.
  - now rewrite app_nil_r.
  - rewrite IH. unfold blocksOf at 2. now rewrite <- !app_assoc.
Qed.

Lemma formatAssertResults_blocks (groupedResults : LHResultsByURL) :
  formatAssertResults groupedResults status gists
  = flat_map (blocksOf status gists) (Object_values groupedResults).
Proof.
  unfold formatAssertResults. now rewrite reducer_appends.
Qed.

Lemma blocks_nth (groups : list (list LHResult)) (i : nat) (g : list LHResult) :
  nth_error groups i = Some g ->
  nth_error (flat_map (blocksOf status gists) groups) (2 * i)
    = Some (sectionOf (statusColor status) g)
  /\ nth_error (flat_map (blocksOf status gists) groups) (2 * i + 1)
     = Some (reportUrlFieldOf (statusColor status)
               (gistFor gists (resultUrlOf g))).
Proof.
  revert i.
  induction groups as [|g0 groups IH]; intros [|i] H; simpl in H; try discriminate.
  - injection H as ->. split; reflexivity.
  - replace (2 * S i) with (S (S (2 * i))) by lia.
    replace (S (S (2 * i)) + 1) with (S (S (2 * i + 1))) by lia.
    simpl. now apply IH.
Qed.

Lemma section_at (groupedResults : LHResultsByURL) (i : nat) (g : list LHResult) :
  nth_error (Object_values groupedResults) i = Some g ->
  nth_error (formatAssertResults groupedResults status gists) (2 * i)
    = Some (sectionOf (statusColor status) g).
Proof.
  intro H. rewrite formatAssertResults_blocks. now apply blocks_nth.
Qed.

Lemma link_at (groupedResults : LHResultsByURL) (i : nat) (g : list LHResult) :
  nth_error (Object_values groupedResults) i = Some g ->
  nth_error (formatAssertResults groupedResults status gists) (2 * i + 1)
    = Some (reportUrlFieldOf (statusColor status)
              (gistFor gists (resultUrlOf g))).
Proof.
  intro H. rewrite formatAssertResults_blocks. now apply blocks_nth.
Qed.

End FormatFacts.

Lemma string_length_app (a b : string) :
  String.length (a ++ b) = String.length a + String.length b.
Proof.
  induction a as [|c a IH]; simpl; [reflexivity | now rewrite IH].
Qed.

Lemma formatResult_not_ellipsis (res : LHResult) :
  formatResult res <> ellipsisField.
Proof.
  intro H. apply (f_equal f_value) in H. simpl in H.
  apply (f_equal String.length) in H.
  rewrite !string_length_app in H. simpl in H. lia.
Qed.

Lemma firstn_length_min {A : Type} (n : nat) (l : list A) :
  length (firstn n l) = Nat.min n (length l).
Proof. apply length_firstn. Qed.

(** C2. For every group of results, the section rendered for it carries
    the first two results of the group followed by one ellipsis field, that
    is [min 2 n + 1] fields for a group of [n > 0] results, also when the
    group has no third result; a group without results gets no field and no
    ellipsis. *)
Theorem fields_two_and_ellipsis :
  forall (groupedResults : LHResultsByURL) (status : Z) (gists : list Gist)
         (i : nat) (g : list LHResult),
    nth_error (Object_values groupedResults) i = Some g ->
    exists section fields,
      nth_error (formatAssertResults groupedResults status gists) (2 * i)
        = Some section
      /\ a_fields section = Some fields
      /\ (length g = 0 -> fields = [])
      /\ (0 < length g ->
          fields = (map formatResult (firstn 2 g) ++ [ellipsisField])%list
          /\ length fields = Nat.min 2 (length g) + 1
          /\ ~ In ellipsisField (map formatResult (firstn 2 g))).
Proof.
  intros gr status gists i g Hg.
  exists (sectionOf (statusColor status) g), (fieldsOf g).
  split; [now apply section_at|].
  split; [reflexivity|].
  unfold fieldsOf.
  split.
  - intro H0. destruct g; [reflexivity | discriminate].
  - intro Hpos.
    assert (Hlen : length (firstn 2 (map formatResult g)) = Nat.min 2 (length g))
      by now rewrite firstn_length_min, length_map.
    destruct (Nat.ltb_spec 0 (length (firstn 2 (map formatResult g)))) as [_|Hle];
      [|lia].
    rewrite firstn_map.
    split; [reflexivity|].
    split.
    + rewrite length_app, length_map, firstn_length_min. simpl. lia.
    + rewrite in_map_iff. intros [r [Hr _]].
      now apply (formatResult_not_ellipsis r).
Qed.

Lemma fields_two_and_ellipsis_witness :
  exists section fields,
    nth_error
      (formatAssertResults [("https://example.com/a", Sample.results0)] 1 [])
      (2 * 0) = Some section
    /\ a_fields section = Some fields
    /\ length fields = 3.
Proof.
  destruct (fields_two_and_ellipsis
              [("https://example.com/a", Sample.results0)] 1 [] 0 Sample.results0
              eq_refl)
    as [section [fields [Hs [Hf [_ Hpos]]]]].
  exists section, fields.
  split; [exact Hs|].
  split; [exact Hf|].
  destruct Hpos as [_ [Hlen _]]; [simpl; lia | exact Hlen].
Defined.

(** ** Groups and their URL *)

Lemma insert_by_index_In {A : Type} (n : N) (a : A) (l : list (N * A)) (x : N * A) :
  In x (insert_by_index n a l) -> x = (n, a) \/ In x l.
Proof.
  induction l as [|[m b] l IH]; simpl.
  - intros [H|[]]; auto.
  - destruct (n <? m)%N; simpl; intros [H|H]; auto.
    destruct (IH H); auto.
Qed.

Lemma indexed_values_In {A : Type} (o : list (string * A)) (acc : list (N * A))
  (x : N * A) :
  In x (fold_left (fun acc kv =>
                     match array_index (fst kv) with
                     | Some n => insert_by_index n (snd kv) acc
                     | None => acc
                     end) o acc) ->
  In x acc \/ exists k, In (k, snd x) o.
Proof.
  revert acc.
  induction o as [|[k a] o IH]; intros acc H; simpl in *; auto.
  destruct (IH _ H) as [Hacc|[k' Hk']].
  - destruct (array_index k); auto.
    destruct (insert_by_index_In _ _ _ _ Hacc) as [->|Hin]; auto.
    right. exists k. now left.
  - right. exists k'. now right.
Qed.

(** Every value listed by [Object.values] is the value of a property. *)
Lemma Object_values_In {A : Type} (o : list (string * A)) (a : A) :
  In a (Object_values o) -> exists k, In (k, a) o.
Proof.
  unfold Object_values. rewrite in_app_iff, !in_map_iff.
  intros [[[n b] [Hb Hin]]|[[k b] [Hb Hin]]]; simpl in Hb; subst b.
  - destruct (indexed_values_In _ _ _ Hin) as [[]|H]. exact H.
  - apply filter_In in Hin. exists k. tauto.
Qed.

Lemma groupBy_add_wellGrouped (r : LHResult) (groups : LHResultsByURL) :
  wellGrouped groups -> wellGrouped (groupBy_add r groups).
Proof.
  induction groups as [|[k g] groups IH]; intros Hw k' g' Hin; simpl in Hin.
  - destruct Hin as [[= <- <-]|[]]. split; [discriminate | now repeat constructor].
  - assert (Htl : wellGrouped groups)
      by (intros k0 g0 H0; apply Hw; now right).
    destruct (String.eqb_spec k (url r)) as [Heq|Hne].
    + destruct Hin as [[= <- <-]|Hin].
      * destruct (Hw k g (or_introl eq_refl)) as [_ Hall].
        split; [now destruct g|].
        apply Forall_app. split; [exact Hall | now repeat constructor].
      * now apply Htl.
    + destruct Hin as [[= <- <-]|Hin].
      * apply Hw. now left.
      * now apply (IH Htl).
Qed.

Lemma groupBy_wellGrouped (assertionResults : list LHResult) :
  wellGrouped (groupBy assertionResults).
Proof.
  unfold groupBy.
  assert (H : forall groups, wellGrouped groups ->
                wellGrouped (fold_left (fun groups r => groupBy_add r groups)
                               assertionResults groups)).
  { induction assertionResults as [|r rs IH]; intros groups Hw; simpl; auto.
    apply IH. now apply groupBy_add_wellGrouped. }
  apply H. intros k g [].
Qed.

Lemma resultUrlOf_key (k : string) (g : list LHResult) :
  g <> [] -> Forall (fun r => url r = k) g -> resultUrlOf g = k.
Proof.
  destruct g as [|r g]; [congruence|].
  intros _ H. inversion H; subst. reflexivity.
Qed.

Lemma nat_toString_reads_back (n : nat) :
  option_map Nat.of_uint (NilZero.uint_of_string (JS.nat_toString n)) = Some n.
Proof.
  unfold JS.nat_toString.
  rewrite NilZero.usu.
  - simpl. now rewrite DecimalNat.Unsigned.of_to.
  - intro H. pose proof (DecimalNat.Unsigned.of_to n) as E.
    rewrite H in E. simpl in E. subst n. discriminate.
Qed.

(** C3. For every group of results, the headline of its section is the
    decimal text of the size of the group plus one, followed by
    [" result(s) for "] and the url of the group: the number shown is always
    one more than the number of results.  For the groups built by [groupBy]
    the url shown is the one every result of the group carries. *)
Theorem headline_counts_one_more :
  forall (groupedResults : LHResultsByURL) (status : Z) (gists : list Gist)
         (i : nat) (g : list LHResult),
    nth_error (Object_values groupedResults) i = Some g ->
    exists section shown,
      nth_error (formatAssertResults groupedResults status gists) (2 * i)
        = Some section
      /\ a_text section = Some (shown ++ " result(s) for " ++ resultUrlOf g)
      /\ shown = JS.nat_toString (length g + 1)
      /\ option_map Nat.of_uint (NilZero.uint_of_string shown)
         = Some (length g + 1)
      /\ (forall assertionResults,
             groupedResults = groupBy assertionResults ->
             In (resultUrlOf g, g) groupedResults
             /\ Forall (fun r => url r = resultUrlOf g) g).
Proof.
  intros gr status gists i g Hg.
  exists (sectionOf (statusColor status) g), (JS.nat_toString (length g + 1)).
  split; [now apply section_at|].
  split; [reflexivity|].
  split; [reflexivity|].
  split; [apply nat_toString_reads_back|].
  intros rs ->.
  destruct (Object_values_In _ _ (nth_error_In _ _ Hg)) as [k Hk].
  destruct (groupBy_wellGrouped rs k g Hk) as [Hne Hall].
  rewrite (resultUrlOf_key k g Hne Hall). now split.
Qed.

Lemma headline_counts_one_more_witness :
  exists section,
    nth_error (formatAssertResults (groupBy Sample.results0) 1 []) (2 * 0)
      = Some section
    /\ a_text section = Some "4 result(s) for https://example.com/a".
Proof.
  destruct (headline_counts_one_more (groupBy Sample.results0) 1 [] 0
              Sample.results0 eq_refl)
    as [section [shown [Hs [Ht [Hshown _]]]]].
  exists section. split; [exact Hs|].
  rewrite Ht, Hshown. reflexivity.
Defined.

(** C8. The phrase chosen for the operator ["<="] is spelt ["less then"]
    in the rendered value, while every other operator gives
    ["greater than"]: a result compared with ["<="] does not embed
    ["less than"]. *)
Theorem less_than_is_misspelt :
  option_map (map f_value)
    (a_fields
       (nth 0 (formatAssertResults
                 [("https://example.com/a", [Sample.res "1"; Sample.resGe])] 1 [])
            emptyAttachment))
  = Some ["First Contentful Paint 1 " ++ JS.LF
            ++ " _Expected 0.5  less then actual 0.8_";
          "Performance " ++ JS.LF ++ " _Expected 0.9  greater than actual 0.4_";
          EmptyString]
  /\ JS.includes "less than" (f_value (formatResult (Sample.res "1"))) = false
  /\ JS.includes "less then" (f_value (formatResult (Sample.res "1"))) = true
  /\ JS.includes "greater than" (f_value (formatResult Sample.resGe)) = true.
Proof.
  repeat split; vm_compute; reflexivity.
Qed.

(** ** The report link *)

Lemma find_hasUrl (resultUrl : string) (gists : list Gist) (ref : Gist) :
  JS.find (hasUrl resultUrl) gists = Some ref ->
  In ref gists /\ gist_url ref = Some resultUrl.
Proof.
  intro H. apply find_some in H. destruct H as [Hin Hp].
  split; [exact Hin|].
  unfold hasUrl in Hp. destruct (gist_url ref) as [u|]; [|discriminate].
  apply String.eqb_eq in Hp. now subst.
Qed.

Lemma find_hasUrl_none (resultUrl : string) (gists : list Gist) :
  (forall ref, In ref gists -> gist_url ref <> Some resultUrl) ->
  JS.find (hasUrl resultUrl) gists = None.
Proof.
  intro H. unfold JS.find.
  destruct (List.find (hasUrl resultUrl) gists) as [ref|] eqn:E; [|reflexivity].
  destruct (find_hasUrl _ _ _ E) as [Hin Hu]. now destruct (H ref Hin).
Qed.

Lemma getLHReportURL_of_reference (ref : Gist) (u : string) :
  gist_url ref = Some u -> getLHReportURL ref = viewerURL ref.
Proof.
  intro H. unfold getLHReportURL, isEmpty. now rewrite H.
Qed.

(** C9. For every group of results: when some reference carries the url of
    the group, the attachment pushed after the section of the group is a
    report link whose address is the viewer template filled with the id
    and the version of the first such reference; when none does, the
    attachment pushed is the empty object, which has no title and no link,
    and the Markdown summary renders it as the empty text. *)
Theorem report_link_of_group :
  forall (groupedResults : LHResultsByURL) (status : Z) (gists : list Gist)
         (i : nat) (g : list LHResult),
    nth_error (Object_values groupedResults) i = Some g ->
    exists block,
      nth_error (formatAssertResults groupedResults status gists) (2 * i + 1)
        = Some block
      /\ ((exists ref, In ref gists /\ gist_url ref = Some (resultUrlOf g)) ->
          exists ref,
            JS.find (hasUrl (resultUrlOf g)) gists = Some ref
            /\ In ref gists
            /\ gist_url ref = Some (resultUrlOf g)
            /\ block = {| a_pretext := None;
                          a_title := Some "View Detailed Lighthouse Report";
                          a_title_link :=
                            Some ("https://googlechrome.github.io/lighthouse/viewer/?gist="
                                    ++ JS.template JS.array_toString (gist_id ref)
                                    ++ "/"
                                    ++ JS.template (fun s => s) (gist_sha ref));
                          a_text := None;
                          a_color := Some (statusColor status);
                          a_fields := None |})
      /\ ((forall ref, In ref gists -> gist_url ref <> Some (resultUrlOf g)) ->
          block = emptyAttachment
          /\ a_title_link block = None
          /\ JS.trim (resultTitle block ++ JS.LF ++ fieldsTemplate block)
             = EmptyString).
Proof.
  intros gr status gists i g Hg.
  exists (reportUrlFieldOf (statusColor status) (gistFor gists (resultUrlOf g))).
  split; [now apply link_at|].
  split.
  - intros [ref0 [Hin0 Hu0]].
    destruct (JS.find (hasUrl (resultUrlOf g)) gists) as [ref|] eqn:E.
    + destruct (find_hasUrl _ _ _ E) as [Hin Hu].
      exists ref. repeat split; try assumption.
      unfold gistFor. rewrite E. simpl.
      unfold reportUrlFieldOf.
      rewrite (getLHReportURL_of_reference ref _ Hu).
      reflexivity.
    + exfalso. unfold JS.find in E.
      apply (find_none _ _ E) in Hin0.
      unfold hasUrl in Hin0. rewrite Hu0, String.eqb_refl in Hin0. discriminate.
  - intro Hnone.
    unfold gistFor. rewrite (find_hasUrl_none _ _ Hnone).
    repeat split; reflexivity.
Qed.

Lemma report_link_of_group_witness :
  exists block,
    nth_error
      (formatAssertResults (groupBy Sample.results0) 1
         [emptyGist;
          {| gist_url := Some "https://example.com/a";
             gist_id := Some ["g42"];
             gist_sha := Some "v2" |}])
      (2 * 0 + 1) = Some block
    /\ a_title_link block
       = Some "https://googlechrome.github.io/lighthouse/viewer/?gist=g42/v2".
Proof.
  destruct (report_link_of_group (groupBy Sample.results0) 1
              [emptyGist;
               {| gist_url := Some "https://example.com/a";
                  gist_id := Some ["g42"];
                  gist_sha := Some "v2" |}]
              0 Sample.results0 eq_refl)
    as [block [Hb [Hsome _]]].
  exists block. split; [exact Hb|].
  destruct Hsome as [ref [Hfind [_ [_ ->]]]].
  - eexists. split; [right; left; reflexivity | reflexivity].
  - vm_compute in Hfind. injection Hfind as <-. reflexivity.
Defined.

(** * Properties of the archiver *)

Lemma holdsName_In (gistName : string) (entry : GistEntry) :
  holdsName gistName entry = true <-> In gistName (entry_files entry).
Proof.
  unfold holdsName.
  induction (entry_files entry) as [|f fs IH]; simpl.
  - split; [discriminate | intros []].
  - destruct (String.eqb_spec f gistName) as [->|Hne]; simpl.
    + split; auto.
    + rewrite IH. split; [auto | intros [H|H]; [congruence | exact H]].
Qed.

Lemma find_holdsName (gistName : string) (entries : list GistEntry) :
  (exists entry, In entry entries /\ In gistName (entry_files entry)) ->
  exists entry, JS.find (holdsName gistName) entries = Some entry
                /\ In entry entries /\ In gistName (entry_files entry).
Proof.
  intros [e0 [Hin0 Hn0]]. unfold JS.find.
  destruct (List.find (holdsName gistName) entries) as [entry|] eqn:E.
  - apply find_some in E. destruct E as [Hin Hp].
    exists entry. rewrite holdsName_In in Hp. auto.
  - apply (find_none _ _ E) in Hin0.
    apply holdsName_In in Hn0. congruence.
Qed.

Lemma find_holdsName_none (gistName : string) (entries : list GistEntry) :
  (forall entry, In entry entries -> ~ In gistName (entry_files entry)) ->
  JS.find (holdsName gistName) entries = None.
Proof.
  intro H. unfold JS.find.
  destruct (List.find (holdsName gistName) entries) as [entry|] eqn:E;
    [|reflexivity].
  apply find_some in E. destruct E as [Hin Hp].
  rewrite holdsName_In in Hp. now destruct (H entry Hin).
Qed.

Lemma includes_char_cons (sep c : ascii) (s : string) :
  JS.includes (String sep EmptyString) (String c s)
  = Ascii.eqb sep c || JS.includes (String sep EmptyString) s.
Proof.
  simpl. now rewrite Bool.andb_true_r.
Qed.

Lemma split_without_separator (sep : ascii) (s : string) :
  JS.includes (String sep EmptyString) s = false -> JS.split sep s = [s].
Proof.
  induction s as [|c s IH]; [reflexivity|].
  rewrite includes_char_cons. intro H.
  apply Bool.orb_false_elim in H. destruct H as [Hc Hs].
  cbn [JS.split]. rewrite Ascii.eqb_sym, Hc, (IH Hs). reflexivity.
Qed.

Section UploadOnce.

Variable env : Env.
Variable w : World.
Variables token resultPath content : string.
Variable results : LHR.
Variable entries : list GistEntry.

Hypothesis token_given : JS.truthy token = true.
Hypothesis path_given : JS.truthy resultPath = true.
Hypothesis file_read :
  readFile w (path_join (resultsDirPath env) resultPath) = Some content.
Hypothesis file_parsed : JSON_parse_lhr w content = Some results.
Hypothesis entries_listed : gists_list w token = Some entries.

Lemma upload_steps :
  let file := path_join (resultsDirPath env) resultPath in
  let url := JS.get_or (requestedUrl results) EmptyString in
  let gistName := gistNameOf env url in
  let existingGist := JS.find (holdsName gistName) entries in
  let gistParams :=
    {| gp_gist_id := option_map entry_id existingGist;
       gp_files := [(gistName, content)] |} in
  uploadResultToGist env w (Some token) resultPath
  = match existingGist with
    | Some _ =>
        match gists_update w token gistParams with
        | Some gist =>
            (Resolved
               {| gist_url := Some url;
                  gist_id := Some (JS.split "/"
                                     (JS.get_or (data_id gist) EmptyString));
                  gist_sha := Some (JS.get_or
                                      (JS.get_or
                                         (nth_error (data_history gist) 0) None)
                                      EmptyString) |},
             [ReadFile file; GistsList token; GistsUpdate token gistParams])
        | None =>
            (Rejected (RequestError "gists.update"),
             [ReadFile file; GistsList token; GistsUpdate token gistParams])
        end
    | None =>
        match gists_create w token gistParams with
        | Some gist =>
            (Resolved
               {| gist_url := Some url;
                  gist_id := Some (JS.split "/"
                                     (JS.get_or (data_id gist) EmptyString));
                  gist_sha := Some (JS.get_or
                                      (JS.get_or
                                         (nth_error (data_history gist) 0) None)
                                      EmptyString) |},
             [ReadFile file; GistsList token; GistsCreate token gistParams])
        | None =>
            (Rejected (RequestError "gists.create"),
             [ReadFile file; GistsList token; GistsCreate token gistParams])
        end
    end.
Proof.
  intros file url gistName existingGist gistParams.
  unfold uploadResultToGist. simpl JS.truthy_opt.
  rewrite token_given, path_given. simpl negb. simpl orb. cbv iota.
  rewrite file_read. simpl request. unfold await at 1.
  rewrite file_parsed. simpl JS.get_or at 1.
  rewrite entries_listed. simpl request. unfold await at 1.
  subst gistParams existingGist gistName url file.
  destruct (JS.find
              (holdsName
                 (gistNameOf env (JS.get_or (requestedUrl results) EmptyString)))
              entries) as [entry|]; cbn [option_map request].
  - destruct (gists_update w token _); reflexivity.
  - destruct (gists_create w token _); reflexivity.
Qed.

End UploadOnce.

Lemma upload_calls_update
  (env : Env) (w : World) (token resultPath content : string) (results : LHR)
  (entries : list GistEntry) :
  JS.truthy token = true ->
  JS.truthy resultPath = true ->
  readFile w (path_join (resultsDirPath env) resultPath) = Some content ->
  JSON_parse_lhr w content = Some results ->
  gists_list w token = Some entries ->
  forall entry,
    JS.find (holdsName (gistNameOf env (JS.get_or (requestedUrl results) EmptyString)))
      entries = Some entry ->
    calls (uploadResultToGist env w (Some token) resultPath)
    = [ReadFile (path_join (resultsDirPath env) resultPath);
       GistsList token;
       GistsUpdate token
         {| gp_gist_id := Some (entry_id entry);
            gp_files :=
              [(gistNameOf env (JS.get_or (requestedUrl results) EmptyString),
                content)] |}].
Proof.
  intros Ht Hp Hr Hj Hl entry Hfind.
  rewrite (upload_steps env w token resultPath content results entries Ht Hp Hr Hj Hl).
  cbv zeta. rewrite Hfind. simpl option_map.
  destruct (gists_update w token _); reflexivity.
Qed.

Lemma upload_calls_create
  (env : Env) (w : World) (token resultPath content : string) (results : LHR)
  (entries : list GistEntry) :
  JS.truthy token = true ->
  JS.truthy resultPath = true ->
  readFile w (path_join (resultsDirPath env) resultPath) = Some content ->
  JSON_parse_lhr w content = Some results ->
  gists_list w token = Some entries ->
  JS.find (holdsName (gistNameOf env (JS.get_or (requestedUrl results) EmptyString)))
    entries = None ->
  calls (uploadResultToGist env w (Some token) resultPath)
  = [ReadFile (path_join (resultsDirPath env) resultPath);
     GistsList token;
     GistsCreate token
       {| gp_gist_id := None;
          gp_files :=
            [(gistNameOf env (JS.get_or (requestedUrl results) EmptyString),
              content)] |}].
Proof.
  intros Ht Hp Hr Hj Hl Hfind.
  rewrite (upload_steps env w token resultPath content results entries Ht Hp Hr Hj Hl).
  cbv zeta. rewrite Hfind. simpl option_map.
  destruct (gists_create w token _); reflexivity.
Qed.

(** C1. Once the raw result is read and parsed and the gists are listed:
    when some listed entry has a file called by the derived name, the one
    call that follows is [update], with the id of the first such entry, and
    [create] is not called; when no listed entry has such a file, the call
    is [create] and [update] is not called.  The derived name depends on the
    repository and the inspected url only, so a later upload for the same
    url that finds the entry written by this one listed updates it. *)
Theorem upload_updates_existing_entry :
  forall (env : Env) (w : World) (token resultPath content : string)
         (results : LHR) (entries : list GistEntry),
    JS.truthy token = true ->
    JS.truthy resultPath = true ->
    readFile w (path_join (resultsDirPath env) resultPath) = Some content ->
    JSON_parse_lhr w content = Some results ->
    gists_list w token = Some entries ->
    let gistName :=
      gistNameOf env (JS.get_or (requestedUrl results) EmptyString) in
    let made := calls (uploadResultToGist env w (Some token) resultPath) in
    ((exists entry, In entry entries /\ In gistName (entry_files entry)) ->
     exists entry,
       JS.find (holdsName gistName) entries = Some entry
       /\ In entry entries
       /\ In gistName (entry_files entry)
       /\ made = [ReadFile (path_join (resultsDirPath env) resultPath);
                  GistsList token;
                  GistsUpdate token
                    {| gp_gist_id := Some (entry_id entry);
                       gp_files := [(gistName, content)] |}]
       /\ (forall t p, ~ In (GistsCreate t p) made))
    /\ ((forall entry, In entry entries -> ~ In gistName (entry_files entry)) ->
        made = [ReadFile (path_join (resultsDirPath env) resultPath);
                GistsList token;
                GistsCreate token
                  {| gp_gist_id := None; gp_files := [(gistName, content)] |}]
        /\ (forall t p, ~ In (GistsUpdate t p) made))
    /\ (forall (w' : World) (resultPath' content' : string) (results' : LHR)
               (entries' : list GistEntry),
           JS.truthy resultPath' = true ->
           readFile w' (path_join (resultsDirPath env) resultPath')
             = Some content' ->
           JSON_parse_lhr w' content' = Some results' ->
           gists_list w' token = Some entries' ->
           requestedUrl results' = requestedUrl results ->
           (exists entry,
               In entry entries'
               /\ forall p name,
                   In (GistsCreate token p) made \/ In (GistsUpdate token p) made ->
                   In name (map fst (gp_files p)) ->
                   In name (entry_files entry)) ->
           exists entry,
             In entry entries'
             /\ calls (uploadResultToGist env w' (Some token) resultPath')
                = [ReadFile (path_join (resultsDirPath env) resultPath');
                   GistsList token;
                   GistsUpdate token
                     {| gp_gist_id := Some (entry_id entry);
                        gp_files := [(gistName, content')] |}]).
Proof.
  intros env w token resultPath content results entries Ht Hp Hr Hj Hl
         gistName made.
  assert (Hupdate :
            forall entry, JS.find (holdsName gistName) entries = Some entry ->
              made = [ReadFile (path_join (resultsDirPath env) resultPath);
                      GistsList token;
                      GistsUpdate token
                        {| gp_gist_id := Some (entry_id entry);
                           gp_files := [(gistName, content)] |}])
    by (intros entry Hfind; now apply upload_calls_update with (entries := entries)).
  assert (Hcreate :
            JS.find (holdsName gistName) entries = None ->
            made = [ReadFile (path_join (resultsDirPath env) resultPath);
                    GistsList token;
                    GistsCreate token
                      {| gp_gist_id := None;
                         gp_files := [(gistName, content)] |}])
    by (intros Hfind; now apply upload_calls_create with (entries := entries)).
  split; [|split].
  - intro Hex.
    destruct (find_holdsName gistName entries Hex) as [entry [Hfind [Hin Hname]]].
    exists entry. repeat split; try assumption.
    + now apply Hupdate.
    + intros t p. rewrite (Hupdate entry Hfind). simpl.
      intros [H|[H|[H|[]]]]; discriminate.
  - intro Hnone.
    pose proof (find_holdsName_none gistName entries Hnone) as Hfind.
    split; [now apply Hcreate|].
    intros t p. rewrite (Hcreate Hfind). simpl.
    intros [H|[H|[H|[]]]]; discriminate.
  - intros w' resultPath' content' results' entries' Hp' Hr' Hj' Hl' Hurl
           [entry0 [Hin0 Hholds]].
    assert (Hname0 : In gistName (entry_files entry0)).
    { destruct (JS.find (holdsName gistName) entries) as [e|] eqn:E.
      - apply (Hholds {| gp_gist_id := Some (entry_id e);
                         gp_files := [(gistName, content)] |}).
        + right. rewrite (Hupdate e eq_refl). simpl. auto.
        + simpl. auto.
      - apply (Hholds {| gp_gist_id := None;
                         gp_files := [(gistName, content)] |}).
        + left. rewrite (Hcreate eq_refl). simpl. auto.
        + simpl. auto. }
    assert (Hsame :
              gistNameOf env (JS.get_or (requestedUrl results') EmptyString)
              = gistName)
      by (unfold gistName; now rewrite Hurl).
    destruct (find_holdsName gistName entries'
                (ex_intro _ entry0 (conj Hin0 Hname0)))
      as [entry [Hfind [Hin _]]].
    exists entry. split; [exact Hin|].
    rewrite <- Hsame in Hfind.
    rewrite (upload_calls_update env w' token resultPath' content' results'
               entries' Ht Hp' Hr' Hj' Hl' entry Hfind).
    now rewrite Hsame.
Qed.

Lemma upload_updates_existing_entry_witness :
  calls (uploadResultToGist Sample.env0 Sample.world0 (Some "pat") "lhr-1.json")
  = [ReadFile "/work/.lighthouseci/lhr-1.json";
     GistsList "pat";
     GistsUpdate "pat"
       {| gp_gist_id := Some "g42";
          gp_files := [(Sample.name0, Sample.lhr_text)] |}].
Proof.
  destruct (upload_updates_existing_entry Sample.env0 Sample.world0 "pat"
              "lhr-1.json" Sample.lhr_text
              {| requestedUrl := Some "https://example.com/a" |}
              [Sample.entry0] eq_refl eq_refl eq_refl eq_refl eq_refl)
    as [Hupdate _].
  destruct Hupdate as [entry [Hfind [_ [_ [Hmade _]]]]].
  - exists Sample.entry0. split; [now left | simpl; auto].
  - vm_compute in Hfind. injection Hfind as <-. exact Hmade.
Defined.

(** What an upload that resolves has gone through. *)
Lemma upload_resolved_inv
  (env : Env) (w : World) (token resultPath : string) (ref : Gist) :
  JS.truthy token = true ->
  JS.truthy resultPath = true ->
  outcome (uploadResultToGist env w (Some token) resultPath) = Resolved ref ->
  exists content results entries,
    readFile w (path_join (resultsDirPath env) resultPath) = Some content
    /\ JSON_parse_lhr w content = Some results
    /\ gists_list w token = Some entries.
Proof.
  intros Ht Hp.
  unfold uploadResultToGist. simpl JS.truthy_opt. rewrite Ht, Hp.
  simpl negb. simpl orb. cbv iota.
  destruct (readFile w (path_join (resultsDirPath env) resultPath))
    as [content|] eqn:Hr; [|discriminate].
  simpl request. unfold await at 1.
  destruct (JSON_parse_lhr w content) as [results|] eqn:Hj; [|discriminate].
  simpl JS.get_or at 1.
  destruct (gists_list w token) as [entries|] eqn:Hl; [|discriminate].
  intros _. now exists content, results, entries.
Qed.

(** C10. The reference returned by an upload that resolves does not carry
    the id answered by the store as a string: its [id] is the list of the
    pieces of that string between slashes (the empty string when the answer
    has no id), which for an id without slash is the one-element list of
    the id; its [sha] is the version of the first entry of the history, or
    the empty string when there is none. *)
Theorem reference_id_is_split :
  forall (env : Env) (w : World) (token resultPath : string) (ref : Gist),
    JS.truthy token = true ->
    JS.truthy resultPath = true ->
    outcome (uploadResultToGist env w (Some token) resultPath) = Resolved ref ->
    exists params gist,
      ((In (GistsUpdate token params)
           (calls (uploadResultToGist env w (Some token) resultPath))
        /\ gists_update w token params = Some gist)
       \/ (In (GistsCreate token params)
              (calls (uploadResultToGist env w (Some token) resultPath))
           /\ gists_create w token params = Some gist))
      /\ gist_id ref
         = Some (JS.split "/" (JS.get_or (data_id gist) EmptyString))
      /\ (forall s, data_id gist = Some s ->
                    JS.includes "/" s = false -> gist_id ref = Some [s])
      /\ gist_sha ref
         = Some (match data_history gist with
                 | Some version :: _ => version
                 | _ => EmptyString
                 end)
      /\ (data_history gist = [] -> gist_sha ref = Some EmptyString).
Proof.
  intros env w token resultPath ref Ht Hp Hres.
  destruct (upload_resolved_inv env w token resultPath ref Ht Hp Hres)
    as [content [results [entries [Hr [Hj Hl]]]]].
  revert Hres.
  rewrite (upload_steps env w token resultPath content results entries
             Ht Hp Hr Hj Hl).
  cbv zeta.
  set (params := {| gp_gist_id := _; gp_files := _ |}).
  assert (Hfields :
            forall gist,
              ref = {| gist_url := Some (JS.get_or (requestedUrl results) EmptyString);
                       gist_id := Some (JS.split "/"
                                          (JS.get_or (data_id gist) EmptyString));
                       gist_sha := Some (JS.get_or
                                           (JS.get_or
                                              (nth_error (data_history gist) 0)
                                              None)
                                           EmptyString) |} ->
              gist_id ref
              = Some (JS.split "/" (JS.get_or (data_id gist) EmptyString))
              /\ (forall s, data_id gist = Some s ->
                            JS.includes "/" s = false -> gist_id ref = Some [s])
              /\ gist_sha ref
                 = Some (match data_history gist with
                         | Some version :: _ => version
                         | _ => EmptyString
                         end)
              /\ (data_history gist = [] -> gist_sha ref = Some EmptyString)).
  { intros gist ->. simpl. repeat split.
    - intros s Hs Hno. rewrite Hs. simpl.
      now rewrite (split_without_separator "/" s Hno).
    - destruct (data_history gist) as [|[v|] h]; reflexivity.
    - intros ->. reflexivity. }
  destruct (JS.find _ entries) as [entry|].
  - destruct (gists_update w token params) as [gist|] eqn:Ha;
      [|discriminate].
    intros [= <-]. exists params, gist.
    split; [left; split; [simpl; auto | exact Ha]|].
    now apply Hfields.
  - destruct (gists_create w token params) as [gist|] eqn:Ha;
      [|discriminate].
    intros [= <-]. exists params, gist.
    split; [right; split; [simpl; auto | exact Ha]|].
    now apply Hfields.
Qed.

Lemma reference_id_is_split_witness :
  exists ref,
    outcome (uploadResultToGist Sample.env0 Sample.world0 (Some "pat") "lhr-1.json")
      = Resolved ref
    /\ gist_id ref = Some ["g42"]
    /\ gist_sha ref = Some "v2".
Proof.
  exists {| gist_url := Some "https://example.com/a";
            gist_id := Some ["g42"];
            gist_sha := Some "v2" |}.
  split; [reflexivity|].
  destruct (reference_id_is_split Sample.env0 Sample.world0 "pat" "lhr-1.json"
              {| gist_url := Some "https://example.com/a";
                 gist_id := Some ["g42"];
                 gist_sha := Some "v2" |}
              eq_refl eq_refl eq_refl)
    as [params [gist [_ [Hid [_ [Hsha _]]]]]].
  split; reflexivity.
Defined.

(** * Properties of the change reference *)

Lemma find_headIs (commit : string) (pulls : list Pull) (pull : Pull) :
  JS.find (headIs commit) pulls = Some pull ->
  In pull pulls /\ head_sha pull = Some commit.
Proof.
  intro H. apply find_some in H. destruct H as [Hin Hp].
  split; [exact Hin|].
  unfold headIs in Hp. destruct (head_sha pull) as [s|]; [|discriminate].
  apply String.eqb_eq in Hp. now subst.
Qed.

Lemma find_headIs_none (commit : string) (pulls : list Pull) :
  (forall pull, In pull pulls -> head_sha pull <> Some commit) ->
  JS.find (headIs commit) pulls = None.
Proof.
  intro H. unfold JS.find.
  destruct (List.find (headIs commit) pulls) as [pull|] eqn:E; [|reflexivity].
  destruct (find_headIs _ _ _ E) as [Hin Hs]. now destruct (H pull Hin).
Qed.

(** C5 does not hold as stated: with a credential and a pull
    request whose head is the current commit, both links are returned. *)
Lemma both_links_on_pull_request :
  outcome (getChangesUrl Sample.env0 Sample.world0 (Some "pat"))
  = Resolved {| sha := "https://github.com/octo/site/commit/abc123";
                pullRequest := "https://github.com/octo/site/pull/7" |}
  /\ exactlyOneLink
       {| sha := "https://github.com/octo/site/commit/abc123";
          pullRequest := "https://github.com/octo/site/pull/7" |} = false
  /\ ~ (forall env w token c,
           outcome (getChangesUrl env w token) = Resolved c ->
           exactlyOneLink c = true).
Proof.
  split; [reflexivity|]. split; [reflexivity|].
  intro H.
  specialize (H Sample.env0 Sample.world0 (Some "pat") _ eq_refl).
  discriminate H.
Qed.

(** C5, amended. The commit link of the reference returned is never
    empty.  The pull-request link is empty without a credential, when no
    listed pull request has the current commit as its head, and when the
    first such pull request has no address or an empty one; otherwise it is
    the address of that pull request, and then both links are non-empty.
    So the two links are never both empty, and exactly one of them is
    non-empty precisely when the pull-request link is empty. *)
Theorem commit_link_always_present :
  forall (env : Env) (w : World) (token : option string) (c : ChangesURL),
    outcome (getChangesUrl env w token) = Resolved c ->
    sha c = "https://github.com/" ++ githubRepo env ++ "/commit/" ++ githubSHA env
    /\ JS.truthy (sha c) = true
    /\ exactlyOneLink c = negb (JS.truthy (pullRequest c))
    /\ (JS.truthy_opt token = false -> pullRequest c = EmptyString)
    /\ (forall t,
           token = Some t -> JS.truthy t = true ->
           exists pulls,
             pulls_list w t (repoOwner env) (repoName env) = Some pulls
             /\ ((forall pull, In pull pulls ->
                               head_sha pull <> Some (githubSHA env)) ->
                 pullRequest c = EmptyString)
             /\ (forall pull,
                    JS.find (headIs (githubSHA env)) pulls = Some pull ->
                    In pull pulls
                    /\ head_sha pull = Some (githubSHA env)
                    /\ pullRequest c = JS.get_or (html_url pull) EmptyString
                    /\ (JS.truthy_opt (html_url pull) = true ->
                        JS.truthy (sha c) = true
                        /\ JS.truthy (pullRequest c) = true
                        /\ exactlyOneLink c = false)
                    /\ (JS.truthy_opt (html_url pull) = false ->
                        pullRequest c = EmptyString
                        /\ exactlyOneLink c = true))).
Proof.
  intros env w token c.
  unfold getChangesUrl.
  destruct (JS.truthy_opt token) eqn:Htok; simpl negb; cbv iota.
  - destruct token as [t|]; [|discriminate]. simpl in Htok.
    cbv zeta. cbn [JS.get_or].
    destruct (pulls_list w t (repoOwner env) (repoName env)) as [pulls|] eqn:Hp;
      unfold outcome, await, request, resolve; simpl; [|discriminate].
    intros [= <-]. simpl.
    split; [reflexivity|]. split; [reflexivity|]. split; [reflexivity|].
    split; [discriminate|].
    intros t' [= <-] _. exists pulls. split; [exact Hp|]. split.
    + intro Hnone. now rewrite (find_headIs_none _ _ Hnone).
    + intros pull Hfind. destruct (find_headIs _ _ _ Hfind) as [Hin Hs].
      rewrite Hfind.
      split; [exact Hin|]. split; [exact Hs|]. split; [reflexivity|].
      unfold exactlyOneLink. simpl.
      destruct (html_url pull) as [[|ch address]|]; simpl; split;
        intro H; try discriminate; auto.
  - unfold outcome, resolve. simpl. intros [= <-]. simpl.
    split; [reflexivity|]. split; [reflexivity|]. split; [reflexivity|].
    split; [reflexivity|].
    intros t -> Ht. simpl in Htok. congruence.
Qed.

Lemma commit_link_always_present_witness :
  sha {| sha := "https://github.com/octo/site/commit/abc123";
         pullRequest := "https://github.com/octo/site/pull/7" |}
  = "https://github.com/octo/site/commit/abc123"
  /\ exactlyOneLink
       {| sha := "https://github.com/octo/site/commit/abc123";
          pullRequest := "https://github.com/octo/site/pull/7" |} = false.
Proof.
  destruct (commit_link_always_present Sample.env0 Sample.world0 (Some "pat")
              {| sha := "https://github.com/octo/site/commit/abc123";
                 pullRequest := "https://github.com/octo/site/pull/7" |}
              eq_refl)
    as [Hsha [_ [Hone _]]].
  split; [exact Hsha | exact Hone].
Defined.

(** * Promises: how outcomes and calls compose *)

Lemma resolves_await {A B : Type} (p : Promise A) (k : A -> Promise B) :
  resolves (await p k)
  = match outcome p with
    | Resolved a => resolves (k a)
    | Rejected _ => false
    end.
Proof.
  destruct p as [[a|e] t]; unfold resolves, outcome; simpl; [|reflexivity].
  now destruct (k a).
Qed.

Lemma calls_await {A B : Type} (p : Promise A) (k : A -> Promise B) :
  calls (await p k)
  = (calls p ++ match outcome p with
                | Resolved a => calls (k a)
                | Rejected _ => []
                end)%list.
Proof.
  destruct p as [[a|e] t]; unfold calls, outcome; simpl.
  - now destruct (k a).
  - now rewrite app_nil_r.
Qed.

Lemma resolves_Promise_all {A : Type} (ps : list (Promise A)) :
  resolves (Promise_all ps) = forallb resolves ps.
Proof.
  induction ps as [|[o t] ps IH]; [reflexivity|].
  simpl. destruct (Promise_all ps) as [os ts].
  unfold resolves, outcome in *. simpl in *.
  destruct o; [|reflexivity]. rewrite <- IH. now destruct os.
Qed.

Lemma calls_Promise_all {A : Type} (ps : list (Promise A)) :
  calls (Promise_all ps) = flat_map calls ps.
Proof.
  induction ps as [|[o t] ps IH]; [reflexivity|].
  simpl. destruct (Promise_all ps) as [os ts].
  unfold calls in *. simpl in *. now rewrite IH.
Qed.

Lemma resolves_Promise_all3 {A B C : Type} (pa : Promise A) (pb : Promise B)
  (pc : Promise C) :
  resolves (Promise_all3 pa pb pc) = resolves pa && resolves pb && resolves pc.
Proof.
  destruct pa as [[a|e] ta], pb as [[b|e'] tb], pc as [[c|e''] tc]; reflexivity.
Qed.

Lemma calls_Promise_all3 {A B C : Type} (pa : Promise A) (pb : Promise B)
  (pc : Promise C) :
  calls (Promise_all3 pa pb pc) = (calls pa ++ calls pb ++ calls pc)%list.
Proof.
  destruct pa as [oa ta], pb as [ob tb], pc as [oc tc]; reflexivity.
Qed.

Lemma resolves_Promise_all2 {A B : Type} (pa : Promise A) (pb : Promise B) :
  resolves (Promise_all2 pa pb) = resolves pa && resolves pb.
Proof.
  destruct pa as [[a|e] ta], pb as [[b|e'] tb]; reflexivity.
Qed.

Lemma resolves_logAndRethrow {A : Type} (p : Promise A) :
  resolves (logAndRethrow p) = resolves p.
Proof.
  destruct p as [[a|e] t]; reflexivity.
Qed.

Lemma calls_logAndRethrow {A : Type} (p : Promise A) :
  calls (logAndRethrow p)
  = (calls p ++ match outcome p with
                | Resolved _ => []
                | Rejected e => [ConsoleLogError e]
                end)%list.
Proof.
  destruct p as [[a|e] t]; unfold calls, outcome; simpl;
    [now rewrite app_nil_r | reflexivity].
Qed.

Lemma resolves_outcome_unit (p : Promise unit) :
  resolves p = true -> outcome p = Resolved tt.
Proof.
  destruct p as [[[]|e] t]; [reflexivity | discriminate].
Qed.

(** * Properties of archiving failures *)

(** C4 does not hold as stated: a raw result that is not JSON makes
    its upload reject, which rejects the whole archive (no list of
    references is produced, although the other file is uploaded) and the
    run; and a raw result without url is archived under the empty url with a
    reference that is not empty. *)
Lemma archive_failure_rejects_run :
  outcome (uploadResultToGist Sample.env0 Sample.world_bad (Some "pat") "lhr-3.json")
  = Rejected (SyntaxError "{")
  /\ outcome (uploadResultsToGist Sample.env0 Sample.world_bad (Some "pat"))
     = Rejected (SyntaxError "{")
  /\ outcome (run Sample.env0 Sample.input0 Sample.world_bad 1)
     = Rejected (SyntaxError "{")
  /\ outcome (uploadResultToGist Sample.env0 Sample.world0 (Some "pat") "lhr-2.json")
     = Resolved {| gist_url := Some EmptyString;
                   gist_id := Some ["new1"];
                   gist_sha := Some "v2" |}.
Proof.
  repeat split; vm_compute; reflexivity.
Qed.

Lemma upload_guard (env : Env) (w : World) (token : option string)
  (resultPath : string) :
  JS.truthy_opt token = false \/ JS.truthy resultPath = false ->
  uploadResultToGist env w token resultPath = (Resolved emptyGist, []).
Proof.
  unfold uploadResultToGist.
  intros [H|H]; rewrite H; simpl; [reflexivity|].
  now rewrite Bool.orb_true_r.
Qed.

Lemma upload_resolved_has_url (env : Env) (w : World) (token resultPath : string)
  (ref : Gist) :
  JS.truthy token = true ->
  JS.truthy resultPath = true ->
  outcome (uploadResultToGist env w (Some token) resultPath) = Resolved ref ->
  exists content results,
    readFile w (path_join (resultsDirPath env) resultPath) = Some content
    /\ JSON_parse_lhr w content = Some results
    /\ gist_url ref = Some (JS.get_or (requestedUrl results) EmptyString).
Proof.
  intros Ht Hp Hres.
  destruct (upload_resolved_inv env w token resultPath ref Ht Hp Hres)
    as [content [results [entries [Hr [Hj Hl]]]]].
  exists content, results. split; [exact Hr|]. split; [exact Hj|].
  revert Hres.
  rewrite (upload_steps env w token resultPath content results entries
             Ht Hp Hr Hj Hl).
  cbv zeta.
  destruct (JS.find _ entries) as [entry|].
  - destruct (gists_update w token _); [|discriminate]. now intros [= <-].
  - destruct (gists_create w token _); [|discriminate]. now intros [= <-].
Qed.

Lemma uploads_reject_with_one (env : Env) (w : World) (token : string)
  (files : list string) (fileName name : string) :
  JS.truthy token = true ->
  readdirSync w (resultsDirPath env) = Some files ->
  In fileName files ->
  match_lhr fileName = Some name ->
  resolves (uploadResultToGist env w (Some token) name) = false ->
  resolves (uploadResultsToGist env w (Some token)) = false.
Proof.
  intros Ht Hdir Hin Hm Hrej.
  unfold uploadResultsToGist, getLHRNameFromPath. simpl JS.truthy_opt.
  rewrite Ht, Hdir. simpl negb. cbv iota.
  rewrite !resolves_await. simpl.
  rewrite resolves_Promise_all.
  apply Bool.not_true_is_false. intro Hall.
  rewrite forallb_forall in Hall.
  assert (Hname : In name
                    (map (fun f => JS.get_or (match_lhr f) EmptyString)
                         (filter (fun f => match match_lhr f with
                                           | Some _ => true
                                           | None => false
                                           end) files))).
  { apply in_map_iff. exists fileName. rewrite Hm. split; [reflexivity|].
    apply filter_In. now rewrite Hm. }
  specialize (Hall (uploadResultToGist env w (Some token) name)
                (in_map _ _ _ Hname)).
  congruence.
Qed.

Lemma run_rejects_with_gather (env : Env) (input : Input) (w : World)
  (status : Z) :
  shouldRunOutput input status = true ->
  resolves (gather env input w) = false ->
  resolves (run env input w status) = false.
Proof.
  intros Hgate Hg. unfold run.
  rewrite resolves_logAndRethrow, Hgate. simpl negb. cbv iota.
  rewrite resolves_await.
  unfold resolves in Hg.
  now destruct (outcome (gather env input w)).
Qed.

(** C4, amended. An upload returns the empty reference only when the
    credential or the file name is empty.  A raw result without url is not
    a failure: the reference returned carries the empty url and is not
    empty.  A failure of one file (unreadable, not JSON, or a request that
    fails) is not absorbed: the upload of that file rejects, which rejects
    the archiving of all files and, when the gate is open, the run. *)
Theorem archive_failures_propagate :
  forall (env : Env) (input : Input) (w : World),
    (forall token resultPath ref,
        outcome (uploadResultToGist env w token resultPath) = Resolved ref ->
        (ref = emptyGist <->
         JS.truthy_opt token = false \/ JS.truthy resultPath = false))
    /\ (forall token resultPath content ref,
           JS.truthy token = true ->
           JS.truthy resultPath = true ->
           readFile w (path_join (resultsDirPath env) resultPath) = Some content ->
           JSON_parse_lhr w content = Some {| requestedUrl := None |} ->
           outcome (uploadResultToGist env w (Some token) resultPath)
             = Resolved ref ->
           gist_url ref = Some EmptyString /\ ref <> emptyGist)
    /\ (forall token files fileName name,
           personalGithubToken input = Some token ->
           JS.truthy token = true ->
           readdirSync w (resultsDirPath env) = Some files ->
           In fileName files ->
           match_lhr fileName = Some name ->
           resolves (uploadResultToGist env w (Some token) name) = false ->
           resolves (uploadResultsToGist env w (Some token)) = false
           /\ forall status,
               shouldRunOutput input status = true ->
               resolves (run env input w status) = false).
Proof.
  intros env input w. split; [|split].
  - intros token resultPath ref Hres.
    destruct (JS.truthy_opt token) eqn:Ht.
    + destruct (JS.truthy resultPath) eqn:Hp.
      * destruct token as [t|]; [|discriminate]. simpl in Ht.
        destruct (upload_resolved_has_url env w t resultPath ref Ht Hp Hres)
          as [content [results [_ [_ Hu]]]].
        split.
        -- intros ->. discriminate.
        -- intros [H|H]; discriminate.
      * rewrite (upload_guard env w token resultPath (or_intror Hp)) in Hres.
        injection Hres as <-. split; auto.
    + rewrite (upload_guard env w token resultPath (or_introl Ht)) in Hres.
      injection Hres as <-. split; auto.
  - intros token resultPath content ref Ht Hp Hr Hj Hres.
    destruct (upload_resolved_has_url env w token resultPath ref Ht Hp Hres)
      as [content' [results' [Hr' [Hj' Hu]]]].
    rewrite Hr in Hr'. injection Hr' as <-.
    rewrite Hj in Hj'. injection Hj' as <-.
    simpl in Hu. split; [exact Hu|].
    intros ->. discriminate.
  - intros token files fileName name Htok Ht Hdir Hin Hm Hrej.
    assert (Hup : resolves (uploadResultsToGist env w (Some token)) = false)
      by now apply uploads_reject_with_one with (files := files)
                                                 (fileName := fileName)
                                                 (name := name).
    split; [exact Hup|].
    intros status Hgate.
    apply run_rejects_with_gather; [exact Hgate|].
    unfold gather. rewrite resolves_Promise_all3, Htok, Hup.
    now rewrite Bool.andb_false_r.
Qed.

Lemma archive_failures_propagate_witness :
  resolves (uploadResultsToGist Sample.env0 Sample.world_bad (Some "pat")) = false
  /\ resolves (run Sample.env0 Sample.input0 Sample.world_bad 1) = false.
Proof.
  destruct (archive_failures_propagate Sample.env0 Sample.input0 Sample.world_bad)
    as [_ [_ Hrej]].
  destruct (Hrej "pat" ["lhr-3.json"; "lhr-1.json"] "lhr-3.json" "lhr-3.json"
              eq_refl eq_refl eq_refl (or_introl eq_refl) eq_refl eq_refl)
    as [Hup Hrun].
  split; [exact Hup | exact (Hrun 1%Z eq_refl)].
Defined.

(** * Properties of the dispatcher *)

Lemma quiet_app (l l' : list Event) : quiet l -> quiet l' -> quiet (l ++ l').
Proof.
  intros H H'. apply Forall_app. now split.
Qed.

Lemma quiet_await {A B : Type} (p : Promise A) (k : A -> Promise B) :
  quiet (calls p) -> (forall a, quiet (calls (k a))) -> quiet (calls (await p k)).
Proof.
  intros Hp Hk. rewrite calls_await. apply quiet_app; [exact Hp|].
  destruct (outcome p); [apply Hk | constructor].
Qed.

Lemma quiet_request {A : Type} (ev : Event) (answer : option A) (e : Error) :
  isChannelCall ev = false -> quiet (calls (request ev answer e)).
Proof.
  intro H. destruct answer; repeat constructor; exact H.
Qed.

Lemma quiet_Promise_all {A : Type} (ps : list (Promise A)) :
  (forall p, In p ps -> quiet (calls p)) -> quiet (calls (Promise_all ps)).
Proof.
  intro H. rewrite calls_Promise_all.
  induction ps as [|p ps IH]; simpl; [constructor|].
  apply quiet_app; [apply H; now left|].
  apply IH. intros q Hq. apply H. now right.
Qed.

Section QuietGathering.

Variable env : Env.
Variable w : World.

Lemma quiet_getGrouped : quiet (calls (getGroupedAssertionResultsByURL env w)).
Proof.
  unfold getGroupedAssertionResultsByURL.
  apply quiet_await; [repeat constructor|]. intros _.
  destruct (existsSync w (lhAssertResultsPath env)); simpl negb; cbv iota.
  - apply quiet_await; [now apply quiet_request|]. intro buffer.
    destruct (JSON_parse_results w buffer); constructor.
  - apply quiet_await; [repeat constructor | intros _; constructor].
Qed.

Lemma quiet_getChangesUrl (token : option string) :
  quiet (calls (getChangesUrl env w token)).
Proof.
  unfold getChangesUrl.
  destruct (negb (JS.truthy_opt token)); [constructor|].
  apply quiet_await; [now apply quiet_request | intros pulls; constructor].
Qed.

Lemma quiet_uploadResultToGist (token : option string) (resultPath : string) :
  quiet (calls (uploadResultToGist env w token resultPath)).
Proof.
  unfold uploadResultToGist.
  destruct (negb (JS.truthy_opt token) || negb (JS.truthy resultPath));
    [constructor|].
  apply quiet_await; [now apply quiet_request|]. intro buffer.
  destruct (JSON_parse_lhr w buffer) as [results|]; [|constructor].
  apply quiet_await; [now apply quiet_request|]. intro gists.
  apply quiet_await; [|intros gist; constructor].
  destruct (JS.find _ gists); now apply quiet_request.
Qed.

Lemma quiet_uploadResultsToGist (token : option string) :
  quiet (calls (uploadResultsToGist env w token)).
Proof.
  unfold uploadResultsToGist.
  destruct (negb (JS.truthy_opt token)); [constructor|].
  apply quiet_await.
  - unfold getLHRNameFromPath.
    apply quiet_await; [now apply quiet_request | intros dir; constructor].
  - intro names. apply quiet_Promise_all.
    intros p Hp. apply in_map_iff in Hp. destruct Hp as [name [<- _]].
    apply quiet_uploadResultToGist.
Qed.

Lemma quiet_gather (input : Input) : quiet (calls (gather env input w)).
Proof.
  unfold gather. rewrite calls_Promise_all3.
  apply quiet_app; [apply quiet_getGrouped|].
  apply quiet_app; [apply quiet_getChangesUrl | apply quiet_uploadResultsToGist].
Qed.

End QuietGathering.





Lemma getGrouped_missing (env : Env) (w : World) :
  existsSync w (lhAssertResultsPath env) = false ->
  getGroupedAssertionResultsByURL env w
  = (Resolved [],
     [ExistsSync (lhAssertResultsPath env);
      ConsoleLog ("No LH Assert results in " ++ lhAssertResultsPath env)]).
Proof.
  intro H. unfold getGroupedAssertionResultsByURL. rewrite H. reflexivity.
Qed.

Lemma slackNotification_resolves (w : World) (status : Z)
  (hook : option string) (changesURL : ChangesURL)
  (groupedResults : LHResultsByURL) (gists : list Gist) :
  channelsAnswer w ->
  resolves (slackNotification w status hook changesURL groupedResults gists)
  = true.
Proof.
  intros [Hsend _]. unfold slackNotification.
  rewrite resolves_await. simpl. now rewrite Hsend.
Qed.

Lemma githubNotification_resolves (env : Env) (w : World) (status : Z)
  (token : option string) (changesURL : ChangesURL) (gists : list Gist)
  (groupedResults : LHResultsByURL) :
  channelsAnswer w ->
  resolves (githubNotification env w status token changesURL gists groupedResults)
  = true.
Proof.
  intros [_ [Hsuite Hcreate]]. unfold githubNotification.
  rewrite resolves_await. simpl.
  rewrite resolves_await, Hsuite. simpl. now rewrite Hcreate.
Qed.

Lemma run_resolves (env : Env) (input : Input) (w : World) (status : Z) :
  resolves (gather env input w) = true ->
  channelsAnswer w ->
  resolves (run env input w status) = true.
Proof.
  intros Hg Hch. unfold run. rewrite resolves_logAndRethrow.
  destruct (negb (shouldRunOutput input status)); [reflexivity|].
  rewrite resolves_await.
  unfold resolves in Hg.
  destruct (outcome (gather env input w))
    as [[[groupedResults changesURL] gists]|e]; [|discriminate].
  destruct (githubEnabled input), (slackEnabled input); simpl.
  - rewrite resolves_await.
    match goal with
    | |- context [outcome ?p] =>
        assert (H2 : resolves p = true)
          by (rewrite resolves_Promise_all2, slackNotification_resolves,
                githubNotification_resolves by exact Hch; reflexivity);
        unfold resolves in H2; destruct (outcome p);
        [reflexivity | discriminate]
    end.
  - now apply githubNotification_resolves.
  - now apply slackNotification_resolves.
  - reflexivity.
Qed.

Lemma run_calls_include_changes (env : Env) (input : Input) (w : World)
  (status : Z) :
  shouldRunOutput input status = true ->
  exists before after,
    calls (run env input w status)
    = (before ++ calls (getChangesUrl env w (personalGithubToken input))
         ++ after)%list.
Proof.
  intro Hgate. unfold run. rewrite Hgate. simpl negb. cbv iota.
  rewrite calls_logAndRethrow, calls_await.
  unfold gather at 1. rewrite calls_Promise_all3.
  exists (calls (getGroupedAssertionResultsByURL env w)).
  eexists. rewrite <- !app_assoc. reflexivity.
Qed.

(** * A worked run

    Level ["info"], one url with three results compared with ["<="], no
    credential for the archive and the pull requests, Slack only: the
    headline announces four results, two fields and the ellipsis are
    rendered, no report link is built and the title carries the commit
    link. *)
Example run_without_credential :
  run Sample.env0
    {| logLevel := "info";
       slackWebhookUrl := Some "https://hooks.example/T";
       applicationGithubToken := None;
       personalGithubToken := None;
       githubNotificationEnabled := true;
       slackNotificationEnabled := true |}
    Sample.world0 1
  = (Resolved tt,
     [ExistsSync "/work/.lighthouseci/assertion-results.json";
      ReadFile "/work/.lighthouseci/assertion-results.json";
      ConsoleLog "Running Slack notification";
      WebhookSend "https://hooks.example/T"
        [{| a_pretext := Some "GitHub Actions / Lighthouse Report";
            a_title :=
              Some ("Changes failure - "
                      ++ "<https://github.com/octo/site/commit/abc123"
                      ++ " | View SHA Changes>");
            a_title_link := None;
            a_text := None;
            a_color := Some "danger";
            a_fields := None |};
         {| a_pretext := None;
            a_title := None;
            a_title_link := None;
            a_text := Some "4 result(s) for https://example.com/a";
            a_color := Some "danger";
            a_fields :=
              Some [formatResult (Sample.res "1");
                    formatResult (Sample.res "2");
                    ellipsisField] |};
         emptyAttachment]]).
Proof. vm_compute. reflexivity. Qed.

(** * Further properties: the grouping *)

Lemma groupBy_add_keys (r : LHResult) (groups : LHResultsByURL) :
  map fst (groupBy_add r groups)
  = if existsb (String.eqb (url r)) (map fst groups)
    then map fst groups
    else (map fst groups ++ [url r])%list.
Proof.
  induction groups as [|[k g] groups IH]; simpl; [reflexivity|].
  rewrite (String.eqb_sym (url r) k).
  destruct (String.eqb k (url r)); simpl; [reflexivity|].
  rewrite IH. now destruct (existsb _ _).
Qed.

Lemma existsb_eqb_In (k : string) (keys : list string) :
  existsb (String.eqb k) keys = true <-> In k keys.
Proof.
  rewrite existsb_exists. split.
  - intros [x [Hin Hx]]. apply String.eqb_eq in Hx. now subst.
  - intro Hin. exists k. split; [exact Hin | apply String.eqb_refl].
Qed.

Lemma groupBy_add_In (r : LHResult) (groups : LHResultsByURL) (k : string)
  (g : list LHResult) :
  NoDup (map fst groups) ->
  In (k, g) (groupBy_add r groups) ->
  (k <> url r /\ In (k, g) groups)
  \/ (k = url r /\ exists g0, In (k, g0) groups /\ g = (g0 ++ [r])%list)
  \/ (k = url r /\ ~ In k (map fst groups) /\ g = [r]).
Proof.
  induction groups as [|[k0 g0] groups IH]; simpl; intros Hnd Hin.
  - destruct Hin as [[= <- <-]|[]]. right. right. auto.
  - inversion Hnd as [|? ? Hnotin Hnd']; subst.
    destruct (String.eqb_spec k0 (url r)) as [Heq|Hne].
    + destruct Hin as [[= <- <-]|Hin].
      * right. left. split; [exact Heq|]. exists g0. auto.
      * left. split; [|now right].
        intros ->. apply Hnotin. rewrite Heq.
        apply in_map_iff. now exists (url r, g).
    + destruct Hin as [[= <- <-]|Hin].
      * left. split; [exact Hne | now left].
      * destruct (IH Hnd' Hin) as [[Hk H]|[[Hk [g1 [H1 H2]]]|[Hk [Hno Hg]]]].
        -- left. split; [exact Hk | now right].
        -- right. left. split; [exact Hk|]. exists g1. split; [now right | exact H2].
        -- right. right. split; [exact Hk|]. split; [|exact Hg].
           intros [H|H]; [congruence | contradiction].
Qed.

Lemma groupBy_add_perm (r : LHResult) (groups : LHResultsByURL) :
  Permutation (concat (map snd (groupBy_add r groups)))
              (r :: concat (map snd groups)).
Proof.
  induction groups as [|[k g] groups IH]; simpl; [reflexivity|].
  destruct (String.eqb k (url r)); simpl.
  - rewrite <- app_assoc. simpl. symmetry. apply Permutation_middle.
  - rewrite IH. symmetry. apply Permutation_middle.
Qed.

Lemma filter_app_last {A : Type} (p : A -> bool) (l : list A) (a : A) :
  filter p (l ++ [a]) = (filter p l ++ if p a then [a] else [])%list.
Proof.
  rewrite filter_app. reflexivity.
Qed.

Lemma groupedSoFar_step (seen : list LHResult) (groups : LHResultsByURL)
  (r : LHResult) :
  groupedSoFar seen groups ->
  groupedSoFar (seen ++ [r]) (groupBy_add r groups).
Proof.
  intros [Hnd [Hgroups [Hkeys Hperm]]].
  split; [|split; [|split]].
  - rewrite groupBy_add_keys.
    destruct (existsb _ _) eqn:E; [exact Hnd|].
    apply NoDup_app_remove_l with (l := []). simpl.
    apply Permutation_NoDup with (l := url r :: map fst groups).
    + apply Permutation_cons_append.
    + constructor; [|exact Hnd].
      intro Hin. apply existsb_eqb_In in Hin. congruence.
  - intros k g Hin.
    destruct (groupBy_add_In r groups k g Hnd Hin)
      as [[Hk H]|[[Hk [g0 [H0 Hg]]]|[Hk [Hno Hg]]]].
    + destruct (Hgroups k g H) as [Hne Hf]. split; [exact Hne|].
      rewrite filter_app_last.
      destruct (String.eqb_spec (url r) k) as [Heq|_]; [congruence|].
      now rewrite app_nil_r.
    + destruct (Hgroups k g0 H0) as [Hne Hf]. subst g. split.
      * now destruct g0.
      * rewrite filter_app_last, <- Hf, Hk, String.eqb_refl. reflexivity.
    + subst g. split; [discriminate|].
      rewrite filter_app_last, Hk, String.eqb_refl.
      assert (Hnone : filter (fun r0 => String.eqb (url r0) (url r)) seen = []).
      { destruct (filter _ seen) as [|r0 l] eqn:E; [reflexivity|].
        assert (Hin0 : In r0 (filter (fun r0 => String.eqb (url r0) (url r)) seen))
          by (rewrite E; now left).
        apply filter_In in Hin0. destruct Hin0 as [Hseen Hu].
        apply String.eqb_eq in Hu. exfalso. apply Hno.
        rewrite Hk, <- Hu. now apply Hkeys. }
      now rewrite Hnone.
  - intros r0 Hin. rewrite groupBy_add_keys.
    apply in_app_or in Hin.
    destruct (existsb _ _) eqn:E.
    + destruct Hin as [Hin|[<-|[]]]; [now apply Hkeys|].
      now apply existsb_eqb_In.
    + apply in_or_app.
      destruct Hin as [Hin|[<-|[]]]; [left; now apply Hkeys | right; now left].
  - rewrite groupBy_add_perm, Hperm. apply Permutation_cons_append.
Qed.

Lemma groupedSoFar_fold (rest seen : list LHResult) (groups : LHResultsByURL) :
  groupedSoFar seen groups ->
  groupedSoFar (seen ++ rest)
    (fold_left (fun groups r => groupBy_add r groups) rest groups).
Proof.
  revert seen groups.
  induction rest as [|r rest IH]; intros seen groups H; simpl.
  - now rewrite app_nil_r.
  - replace (seen ++ r :: rest)%list with ((seen ++ [r]) ++ rest)%list
      by now rewrite <- app_assoc.
    apply IH. now apply groupedSoFar_step.
Qed.

Lemma groupBy_groupedSoFar (assertionResults : list LHResult) :
  groupedSoFar assertionResults (groupBy assertionResults).
Proof.
  apply (groupedSoFar_fold assertionResults [] []).
  repeat split; try constructor; intros; contradiction.
Qed.

(** X1. When the file of assertion results exists and parses, the loader
    resolves with a partition of the results by url: no url names two
    groups, the group of a url is the non-empty list of the results with
    that url in their order in the file, every result is in the group of its
    url, and the groups together are a permutation of the results. *)
Theorem grouping_is_partition :
  forall (env : Env) (w : World) (text : string) (assertionResults : list LHResult),
    existsSync w (lhAssertResultsPath env) = true ->
    readFile w (lhAssertResultsPath env) = Some text ->
    JSON_parse_results w text = Some assertionResults ->
    exists groups,
      outcome (getGroupedAssertionResultsByURL env w) = Resolved groups
      /\ NoDup (map fst groups)
      /\ (forall k g, In (k, g) groups ->
                      g <> []
                      /\ g = filter (fun r => String.eqb (url r) k)
                                    assertionResults)
      /\ (forall r, In r assertionResults ->
                    exists g, In (url r, g) groups /\ In r g)
      /\ Permutation (concat (map snd groups)) assertionResults.
Proof.
  intros env w text rs Hex Hread Hparse.
  exists (groupBy rs).
  destruct (groupBy_groupedSoFar rs) as [Hnd [Hgroups [Hkeys Hperm]]].
  split.
  - unfold getGroupedAssertionResultsByURL, outcome, await, emit, request,
      resolve.
    now rewrite Hex, Hread, Hparse.
  - split; [exact Hnd|]. split; [exact Hgroups|]. split; [|exact Hperm].
    intros r Hin.
    pose proof (Hkeys r Hin) as Hk.
    apply in_map_iff in Hk. destruct Hk as [[k g] [Hfst Hing]].
    simpl in Hfst. subst k.
    exists g. split; [exact Hing|].
    destruct (Hgroups _ _ Hing) as [_ ->].
    apply filter_In. split; [exact Hin | apply String.eqb_refl].
Qed.

Lemma grouping_is_partition_witness :
  exists groups,
    outcome (getGroupedAssertionResultsByURL Sample.env0 Sample.world0)
      = Resolved groups
    /\ NoDup (map fst groups)
    /\ Permutation (concat (map snd groups)) Sample.results0.
Proof.
  destruct (grouping_is_partition Sample.env0 Sample.world0 "[3 results]"
              Sample.results0 eq_refl eq_refl eq_refl)
    as [groups [Hout [Hnd [_ [_ Hperm]]]]].
  exists groups. auto.
Defined.

(** * Further properties: the order and the number of the sections *)

Lemma insert_by_index_perm {A : Type} (n : N) (a : A) (l : list (N * A)) :
  Permutation (insert_by_index n a l) ((n, a) :: l).
Proof.
  induction l as [|[m b] l IH]; simpl; [reflexivity|].
  destruct (n <? m)%N; [reflexivity|].
  rewrite IH. apply perm_swap.
Qed.

Lemma indexed_values_perm {A : Type} (o : list (string * A)) (acc : list (N * A)) :
  Permutation
    (map snd
       (fold_left (fun acc kv =>
                     match array_index (fst kv) with
                     | Some n => insert_by_index n (snd kv) acc
                     | None => acc
                     end) o acc))
    (map snd acc
       ++ map snd (filter (fun kv => match array_index (fst kv) with
                                     | Some _ => true
                                     | None => false
                                     end) o)).
Proof.
  revert acc.
  induction o as [|[k a] o IH]; intro acc; simpl.
  - now rewrite app_nil_r.
  - rewrite IH. destruct (array_index k) as [n|]; simpl; [|reflexivity].
    rewrite (Permutation_map snd (insert_by_index_perm n a acc)). simpl.
    apply Permutation_middle.
Qed.

Lemma filter_split_perm {A : Type} (p : A -> bool) (l : list A) :
  Permutation (filter p l ++ filter (fun a => negb (p a)) l) l.
Proof.
  induction l as [|a l IH]; simpl; [reflexivity|].
  destruct (p a); simpl.
  - now constructor.
  - rewrite <- Permutation_middle. now constructor.
Qed.

(** [Object.values] lists every value once. *)
Lemma Object_values_perm {A : Type} (o : list (string * A)) :
  Permutation (Object_values o) (map snd o).
Proof.
  unfold Object_values.
  rewrite indexed_values_perm. simpl.
  rewrite <- map_app.
  apply Permutation_map.
  rewrite <- (filter_split_perm
                (fun kv => match array_index (fst kv) with
                           | Some _ => true
                           | None => false
                           end) o) at 3.
  apply Permutation_app_head.
  assert (E : forall l : list (string * A),
             filter (fun kv => match array_index (fst kv) with
                               | Some _ => false
                               | None => true
                               end) l
             = filter (fun kv => negb match array_index (fst kv) with
                                      | Some _ => true
                                      | None => false
                                      end) l).
  { intro l. apply filter_ext. intros [k a]. simpl.
    now destruct (array_index k). }
  now rewrite E.
Qed.

Lemma array_index_starts_with_digit (k : string) :
  startsWithDigit k = false -> array_index k = None.
Proof.
  unfold array_index, NilZero.uint_of_string.
  destruct k as [|c k]; [reflexivity|].
  intro Hc. cbv iota.
  destruct (NilEmpty.uint_of_string (String c k)) as [d|] eqn:E;
    [|reflexivity].
  exfalso. simpl in E, Hc.
  destruct (NilEmpty.uint_of_string k) as [d0|];
    [|destruct c as [[] [] [] [] [] [] [] []]; discriminate].
  apply uint_of_char_spec in E.
  intuition (subst c; discriminate).
Qed.

(** With no array-index name, [Object.values] follows the insertion
    order. *)
Lemma Object_values_named {A : Type} (o : list (string * A)) :
  (forall k a, In (k, a) o -> array_index k = None) ->
  Object_values o = map snd o.
Proof.
  intro H. unfold Object_values.
  assert (Hidx : forall acc,
             fold_left (fun acc kv =>
                          match array_index (fst kv) with
                          | Some n => insert_by_index n (snd kv) acc
                          | None => acc
                          end) o acc = acc).
  { induction o as [|[k a] o IH]; intro acc; simpl; [reflexivity|].
    rewrite (H k a (or_introl eq_refl)).
    apply IH. intros k' a' Hin. apply (H k' a'). now right. }
  rewrite Hidx. simpl. f_equal.
  induction o as [|[k a] o IH]; simpl; [reflexivity|].
  rewrite (H k a (or_introl eq_refl)). f_equal.
  apply IH.
  - intros k' a' Hin. apply (H k' a'). now right.
  - intro acc. specialize (Hidx acc). simpl in Hidx.
    now rewrite (H k a (or_introl eq_refl)) in Hidx.
Qed.

Lemma blocks_length (status : Z) (gists : list Gist)
  (groups : list (list LHResult)) :
  length (flat_map (blocksOf status gists) groups) = 2 * length groups.
Proof.
  induction groups as [|g groups IH]; simpl; [reflexivity|].
  rewrite IH. lia.
Qed.

(** X2. [formatAssertResults] renders every group exactly once: what it
    returns is, for some arrangement of the groups of the object that is a
    permutation of them, the section of each group followed by its report
    link or the empty object, so two attachments per group.  When no url
    starts with a digit (so that none is an array index), the arrangement is
    the order in which the urls were first seen. *)
Theorem every_group_rendered_once :
  forall (groupedResults : LHResultsByURL) (status : Z) (gists : list Gist),
    exists groups,
      Permutation groups (map snd groupedResults)
      /\ formatAssertResults groupedResults status gists
         = flat_map
             (fun g =>
                [sectionOf (statusColor status) g;
                 reportUrlFieldOf (statusColor status)
                   (gistFor gists (resultUrlOf g))])
             groups
      /\ length (formatAssertResults groupedResults status gists)
         = 2 * length groupedResults
      /\ ((forall k g, In (k, g) groupedResults -> startsWithDigit k = false) ->
          groups = map snd groupedResults).
Proof.
  intros gr status gists.
  exists (Object_values gr).
  split; [apply Object_values_perm|].
  split; [apply formatAssertResults_blocks|].
  split.
  - rewrite formatAssertResults_blocks, blocks_length.
    now rewrite (Permutation_length (Object_values_perm gr)), length_map.
  - intro Hkeys. apply Object_values_named.
    intros k g Hin. apply array_index_starts_with_digit.
    now apply (Hkeys k g).
Qed.

Lemma every_group_rendered_once_witness :
  formatAssertResults (groupBy Sample.results0) 1 []
  = [sectionOf "danger" Sample.results0; emptyAttachment].
Proof.
  destruct (every_group_rendered_once (groupBy Sample.results0) 1 [])
    as [groups [_ [Hout [_ Horder]]]].
  rewrite Hout, Horder; [reflexivity|].
  intros k g [[= <- <-]|[]]. reflexivity.
Defined.

(** X3. The colour is the run's, not the audit's: every attachment
    returned by [formatAssertResults] either is the empty object or has the
    colour ["good"] when the status is zero and ["danger"] otherwise, and
    every section has it. *)
Theorem colours_follow_status :
  forall (groupedResults : LHResultsByURL) (status : Z) (gists : list Gist)
         (a : Attachment),
    In a (formatAssertResults groupedResults status gists) ->
    (a = emptyAttachment
     \/ a_color a = Some (if (status =? 0)%Z then "good" else "danger"))
    /\ (a_text a <> None ->
        a_color a = Some (if (status =? 0)%Z then "good" else "danger")).
Proof.
  intros gr status gists a Hin.
  rewrite formatAssertResults_blocks in Hin.
  apply in_flat_map in Hin. destruct Hin as [g [_ Hin]].
  destruct Hin as [<-|[<-|[]]].
  - split; [right; reflexivity | intros _; reflexivity].
  - unfold reportUrlFieldOf.
    destruct (JS.truthy (getLHReportURL _)); simpl.
    + split; [right; reflexivity | intros _; reflexivity].
    + split; [now left | congruence].
Qed.

Lemma colours_follow_status_witness :
  a_color (sectionOf "good" Sample.results0) = Some "good".
Proof.
  destruct (colours_follow_status (groupBy Sample.results0) 0 []
              (sectionOf "good" Sample.results0) (or_introl eq_refl))
    as [_ H].
  apply H. discriminate.
Defined.

(** * Further properties: the names of the raw results *)

Lemma string_app_assoc (a b c : string) : (a ++ b) ++ c = a ++ (b ++ c).
Proof.
  induction a as [|x a IH]; simpl; [reflexivity | now rewrite IH].
Qed.

Lemma startsWith_app (p x : string) : JS.startsWith p (p ++ x) = true.
Proof.
  induction p as [|c p IH]; simpl; [reflexivity|].
  now rewrite Ascii.eqb_refl, IH.
Qed.

Lemma startsWith_split (p s : string) :
  JS.startsWith p s = true -> s = p ++ JS.drop (String.length p) s.
Proof.
  revert s.
  induction p as [|c p IH]; intros s H; simpl in *; [reflexivity|].
  destruct s as [|d s]; [discriminate|].
  apply Bool.andb_true_iff in H. destruct H as [Hc Hp].
  apply Ascii.eqb_eq in Hc. subst d. simpl.
  now rewrite <- (IH s Hp).
Qed.

Lemma span_split (p : ascii -> bool) (s a b : string) :
  JS.span p s = (a, b) -> s = a ++ b /\ allChars p a = true.
Proof.
  revert a b.
  induction s as [|c s IH]; intros a b H; simpl in H.
  - injection H as <- <-. now split.
  - destruct (p c) eqn:Hc.
    + destruct (JS.span p s) as [a' b'].
      injection H as <- <-.
      destruct (IH a' b' eq_refl) as [-> Hall].
      split; [reflexivity|]. simpl. now rewrite Hc.
    + injection H as <- <-. now split.
Qed.

Lemma span_app (p : ascii -> bool) (a : string) (c : ascii) (b : string) :
  allChars p a = true -> p c = false ->
  JS.span p (a ++ String c b) = (a, String c b).
Proof.
  intros Ha Hc.
  induction a as [|x a IH]; simpl in *.
  - now rewrite Hc.
  - apply Bool.andb_true_iff in Ha. destruct Ha as [Hx Ha].
    now rewrite Hx, (IH Ha).
Qed.

Lemma match_lhr_here_shape (s m : string) :
  match_lhr_here s = Some m -> isLHRName m /\ JS.startsWith m s = true.
Proof.
  unfold match_lhr_here.
  destruct (JS.startsWith "lhr-" s) eqn:Hpre; [|discriminate].
  destruct (JS.span JS.is_digit (JS.drop 4 s)) as [digits rest] eqn:Hspan.
  destruct (JS.truthy digits && JS.startsWith ".json" rest) eqn:Hok;
    [|discriminate].
  intros [= <-].
  apply Bool.andb_true_iff in Hok. destruct Hok as [Hd Hjson].
  destruct (span_split _ _ _ _ Hspan) as [Hdrop Hall].
  split.
  - exists digits. auto.
  - rewrite (startsWith_split _ _ Hpre). simpl String.length.
    rewrite Hdrop, (startsWith_split _ _ Hjson).
    rewrite <- (string_app_assoc digits), <- (string_app_assoc "lhr-").
    apply startsWith_app.
Qed.

Lemma match_lhr_shape (fileName m : string) :
  match_lhr fileName = Some m ->
  isLHRName m /\ JS.includes m fileName = true.
Proof.
  induction fileName as [|c f IH]; intro H.
  - simpl in H. discriminate.
  - cbn [match_lhr] in H.
    destruct (match_lhr_here (String c f)) as [m'|] eqn:Hhere.
    + injection H as ->.
      destruct (match_lhr_here_shape _ _ Hhere) as [Hshape Hpre].
      split; [exact Hshape|].
      cbn [JS.includes]. now rewrite Hpre.
    + destruct (IH H) as [Hshape Hinc].
      split; [exact Hshape|].
      cbn [JS.includes]. rewrite Hinc. apply Bool.orb_true_r.
Qed.

Lemma match_lhr_exact (name : string) :
  isLHRName name -> match_lhr name = Some name.
Proof.
  intros [digits [-> [Hd Hall]]].
  assert (Hhere : match_lhr_here ("lhr-" ++ digits ++ ".json")
                  = Some ("lhr-" ++ digits ++ ".json")).
  { unfold match_lhr_here. simpl JS.startsWith. cbv iota.
    simpl JS.drop.
    rewrite (span_app JS.is_digit digits "." "json" Hall eq_refl).
    now rewrite Hd. }
  simpl. simpl in Hhere. now rewrite Hhere.
Qed.

Lemma isLHRName_truthy (name : string) : isLHRName name -> JS.truthy name = true.
Proof.
  intros [digits [-> _]]. reflexivity.
Qed.

Lemma match_lhr_here_prefix (digits rest : string) :
  JS.truthy digits = true ->
  allChars JS.is_digit digits = true ->
  match_lhr_here ("lhr-" ++ digits ++ ".json" ++ rest)
  = Some ("lhr-" ++ digits ++ ".json").
Proof.
  intros Hd Hall. unfold match_lhr_here.
  cbn [append JS.startsWith JS.drop Ascii.eqb Bool.eqb andb].
  rewrite (span_app JS.is_digit digits "." _ Hall eq_refl).
  rewrite Hd. cbn [append JS.startsWith Ascii.eqb Bool.eqb andb].
  reflexivity.
Qed.

(** An entry in which a name of the shape occurs has a match. *)
Lemma match_lhr_complete (fileName m : string) :
  isLHRName m -> JS.includes m fileName = true ->
  exists name, match_lhr fileName = Some name.
Proof.
  intros [digits [-> [Hd Hall]]].
  induction fileName as [|c f IH]; intro Hinc.
  - simpl in Hinc. discriminate.
  - cbn [JS.includes] in Hinc.
    destruct (JS.startsWith ("lhr-" ++ digits ++ ".json") (String c f)) eqn:Hpre.
    + apply startsWith_split in Hpre.
      rewrite !string_app_assoc in Hpre.
      cbn [match_lhr]. rewrite Hpre.
      rewrite (match_lhr_here_prefix digits _ Hd Hall). eauto.
    + simpl in Hinc. destruct (IH Hinc) as [name Hname].
      cbn [match_lhr].
      destruct (match_lhr_here (String c f)) as [m'|]; eauto.
Qed.

(** X4. [getLHRNameFromPath] reads the directory once and returns, for
    the entries in which a name [lhr-<digits>.json] occurs, taken in the
    order of the directory, one name each: a name of that shape that occurs
    in the entry, and the entry itself when the entry has the shape.  An
    entry in which no such name occurs gives no name.  No name is empty and
    there are no more names than entries. *)
Theorem raw_result_names :
  forall (w : World) (path : string) (dir : list string),
    readdirSync w path = Some dir ->
    exists names,
      getLHRNameFromPath w path = (Resolved names, [ReadDir path])
      /\ Forall2
           (fun fileName name =>
              match_lhr fileName = Some name
              /\ isLHRName name
              /\ JS.includes name fileName = true)
           (filter (fun fileName => match match_lhr fileName with
                                    | Some _ => true
                                    | None => false
                                    end) dir)
           names
      /\ (forall fileName,
             (exists name, match_lhr fileName = Some name)
             <-> (exists m, isLHRName m /\ JS.includes m fileName = true))
      /\ (forall fileName,
             isLHRName fileName -> match_lhr fileName = Some fileName)
      /\ Forall (fun name => JS.truthy name = true) names
      /\ length names <= length dir.
Proof.
  intros w path dir Hdir.
  eexists. split.
  - unfold getLHRNameFromPath. rewrite Hdir. reflexivity.
  - split; [|split; [|split; [|split]]].
    + clear Hdir.
      induction dir as [|f dir IH]; simpl; [constructor|].
      destruct (match_lhr f) as [m|] eqn:E; simpl.
      * constructor; [|exact IH].
        rewrite E. simpl.
        destruct (match_lhr_shape _ _ E) as [Hshape Hinc]. auto.
      * exact IH.
    + intro f. split.
      * intros [name Hname]. exists name. now apply match_lhr_shape.
      * intros [m [Hshape Hinc]]. now apply match_lhr_complete with (m := m).
    + apply match_lhr_exact.
    + apply Forall_forall. intros name Hin.
      apply in_map_iff in Hin. destruct Hin as [f [Hname Hf]].
      apply filter_In in Hf. destruct Hf as [_ Hm].
      destruct (match_lhr f) as [m|] eqn:E; [|discriminate].
      simpl in Hname. subst m.
      destruct (match_lhr_shape _ _ E) as [Hshape _].
      now apply isLHRName_truthy.
    + rewrite length_map. apply filter_length_le.
Qed.

Lemma raw_result_names_witness :
  exists names,
    getLHRNameFromPath
      (Sample.world ["backup-lhr-12.json.old"; "readme.md"; "lhr-7.json"] [] [])
      "/work/.lighthouseci"
    = (Resolved names, [ReadDir "/work/.lighthouseci"])
    /\ names = ["lhr-12.json"; "lhr-7.json"].
Proof.
  destruct (raw_result_names
              (Sample.world ["backup-lhr-12.json.old"; "readme.md"; "lhr-7.json"]
                 [] [])
              "/work/.lighthouseci"
              ["backup-lhr-12.json.old"; "readme.md"; "lhr-7.json"] eq_refl)
    as [names [Hrun _]].
  exists names. split; [exact Hrun|].
  vm_compute in Hrun. now injection Hrun as <-.
Defined.

(** * Further properties: the name of the archive *)

Lemma split_not_nil (sep : ascii) (s : string) : JS.split sep s <> [].
Proof.
  destruct s as [|c s]; simpl; [discriminate|].
  destruct (Ascii.eqb c sep); [discriminate|].
  destruct (JS.split sep s); discriminate.
Qed.

(** Splitting on a character and joining with [r] replaces the character
    by [r], character by character. *)
Lemma join_split_cons (sep : ascii) (r : string) (c : ascii) (s : string) :
  JS.join r (JS.split sep (String c s))
  = if Ascii.eqb c sep then r ++ JS.join r (JS.split sep s)
    else String c (JS.join r (JS.split sep s)).
Proof.
  cbn [JS.split].
  pose proof (split_not_nil sep s) as Hne.
  destruct (JS.split sep s) as [|piece pieces]; [congruence|].
  destruct (Ascii.eqb c sep); [reflexivity|].
  destruct pieces; reflexivity.
Qed.

Lemma includes_char_app (c : ascii) (a b : string) :
  JS.includes (String c EmptyString) (a ++ b)
  = JS.includes (String c EmptyString) a || JS.includes (String c EmptyString) b.
Proof.
  induction a as [|x a IH].
  - reflexivity.
  - change (String x a ++ b) with (String x (a ++ b)).
    rewrite !includes_char_cons, IH. now rewrite Bool.orb_assoc.
Qed.

Lemma join_split_dashed (s : string) :
  JS.join "-" (JS.split "/" s) = dashed s.
Proof.
  induction s as [|c s IH]; [reflexivity|].
  rewrite join_split_cons, IH. cbn [dashed].
  now destruct (Ascii.eqb c "/").
Qed.

Lemma dashed_without_slash (s : string) : JS.includes "/" (dashed s) = false.
Proof.
  induction s as [|c s IH]; [reflexivity|].
  cbn [dashed]. rewrite includes_char_cons, IH.
  destruct (Ascii.eqb c "/") eqn:E; [reflexivity|].
  now rewrite Ascii.eqb_sym, E.
Qed.

(** X5. The name derived for an archive is ["lhci-action-lhr-"], the
    repository with every slash turned into a dash, a dash, the url without
    its protocol with every slash turned into a dash, and [".json"]; so it
    never contains a slash, whatever the repository and the url are. *)
Theorem archive_name_has_no_slash :
  forall (env : Env) (url : string),
    gistNameOf env url
    = "lhci-action-lhr-" ++ dashed (githubRepo env) ++ "-"
        ++ dashed (stripProtocol url) ++ ".json"
    /\ JS.includes "/" (gistNameOf env url) = false.
Proof.
  intros env url.
  assert (Hname : gistNameOf env url
                  = "lhci-action-lhr-" ++ dashed (githubRepo env) ++ "-"
                      ++ dashed (stripProtocol url) ++ ".json")
    by (unfold gistNameOf; now rewrite !join_split_dashed).
  split; [exact Hname|].
  rewrite Hname, !includes_char_app, !dashed_without_slash. reflexivity.
Qed.

Lemma includes_prefix (p x : string) : JS.includes p (p ++ x) = true.
Proof.
  destruct p as [|c p]; [now destruct x|].
  cbn [append JS.includes].
  change (String c (p ++ x)) with (String c p ++ x).
  now rewrite startsWith_app.
Qed.

Lemma includes_app_r (p a b : string) :
  JS.includes p b = true -> JS.includes p (a ++ b) = true.
Proof.
  intro H. induction a as [|c a IH]; [exact H|].
  cbn [append JS.includes]. rewrite IH. apply Bool.orb_true_r.
Qed.

(** X6. The protocol is forgotten by the archive name: a url with a
    scheme made of word characters followed by [://], and the same address
    written with a bare [//], lose that prefix, so [http] and [https]
    variants of an address share one archive; a url in which [//] does not
    occur is kept whole. *)
Theorem archive_name_ignores_scheme :
  forall (env : Env) (scheme rest : string),
    JS.truthy scheme = true ->
    allChars JS.is_word scheme = true ->
    stripProtocol (scheme ++ "://" ++ rest) = rest
    /\ stripProtocol ("//" ++ rest) = rest
    /\ gistNameOf env (scheme ++ "://" ++ rest) = gistNameOf env ("//" ++ rest)
    /\ (forall other,
           JS.truthy other = true ->
           allChars JS.is_word other = true ->
           gistNameOf env (other ++ "://" ++ rest)
           = gistNameOf env (scheme ++ "://" ++ rest))
    /\ (forall url, JS.includes "//" url = false -> stripProtocol url = url).
Proof.
  intros env scheme rest Hs Hw.
  assert (Hstrip : forall sch, JS.truthy sch = true ->
                               allChars JS.is_word sch = true ->
                               stripProtocol (sch ++ "://" ++ rest) = rest).
  { intros sch Ht Ha. unfold stripProtocol.
    change (sch ++ "://" ++ rest) with (sch ++ String ":" ("//" ++ rest)).
    rewrite (span_app JS.is_word sch ":" ("//" ++ rest) Ha eq_refl).
    rewrite Ht. reflexivity. }
  assert (Hbare : stripProtocol ("//" ++ rest) = rest) by reflexivity.
  split; [now apply Hstrip|].
  split; [exact Hbare|].
  split; [unfold gistNameOf; now rewrite Hstrip, Hbare|].
  split.
  - intros other Ho Hwo. unfold gistNameOf.
    now rewrite (Hstrip other Ho Hwo), (Hstrip scheme Hs Hw).
  - intros url Hno. unfold stripProtocol.
    destruct (JS.span JS.is_word url) as [sch tail] eqn:Hspan.
    destruct (span_split _ _ _ _ Hspan) as [Hurl _].
    destruct (JS.truthy sch && JS.startsWith "://" tail) eqn:E.
    + apply Bool.andb_true_iff in E. destruct E as [_ Hpre].
      exfalso. apply startsWith_split in Hpre. simpl String.length in Hpre.
      assert (Hyes : JS.includes "//" url = true).
      { rewrite Hurl, Hpre.
        change ("://" ++ JS.drop 3 tail)
          with (":" ++ ("//" ++ JS.drop 3 tail)).
        apply includes_app_r, includes_app_r, includes_prefix. }
      congruence.
    + destruct (JS.startsWith "//" url) eqn:E2; [|reflexivity].
      exfalso. apply startsWith_split in E2.
      rewrite E2, includes_prefix in Hno. discriminate.
Qed.

Lemma archive_name_ignores_scheme_witness :
  gistNameOf Sample.env0 "https://example.com/a"
  = gistNameOf Sample.env0 "http://example.com/a".
Proof.
  destruct (archive_name_ignores_scheme Sample.env0 "http" "example.com/a"
              eq_refl eq_refl)
    as [_ [_ [_ [Hother _]]]].
  exact (Hother "https" eq_refl eq_refl).
Defined.

Lemma split_app_sep (sep : ascii) (a b : string) :
  JS.includes (String sep EmptyString) a = false ->
  JS.split sep (a ++ String sep b) = a :: JS.split sep b.
Proof.
  induction a as [|c a IH]; intro H.
  - cbn [append JS.split]. now rewrite Ascii.eqb_refl.
  - rewrite includes_char_cons in H.
    apply Bool.orb_false_elim in H. destruct H as [Hc Ha].
    cbn [append JS.split]. now rewrite Ascii.eqb_sym, Hc, (IH Ha).
Qed.

(** X7. A repository written [owner/name], neither part holding a slash,
    is taken apart into that owner and that name, and enters the archive
    name as [owner-name].  When the variable is not set, the owner is the
    empty string and the name is undefined. *)
Theorem repository_owner_and_name :
  forall (env : Env),
    (forall owner name,
        GITHUB_REPOSITORY env = Some (owner ++ "/" ++ name) ->
        JS.includes "/" owner = false ->
        JS.includes "/" name = false ->
        repoOwner env = Some owner
        /\ repoName env = Some name
        /\ forall url,
            gistNameOf env url
            = "lhci-action-lhr-" ++ owner ++ "-" ++ name ++ "-"
                ++ JS.join "-" (JS.split "/" (stripProtocol url)) ++ ".json")
    /\ (GITHUB_REPOSITORY env = None ->
        repoOwner env = Some EmptyString /\ repoName env = None).
Proof.
  intro env. split.
  - intros owner name Hrepo Ho Hn.
    assert (Hsplit : JS.split "/" (githubRepo env) = [owner; name]).
    { unfold githubRepo. rewrite Hrepo. simpl JS.get_or.
      change (owner ++ "/" ++ name) with (owner ++ String "/" name).
      now rewrite (split_app_sep "/" owner name Ho),
        (split_without_separator "/" name Hn). }
    unfold repoOwner, repoName, gistNameOf. rewrite Hsplit.
    split; [reflexivity|]. split; [reflexivity|].
    intro url. simpl JS.join at 1.
    now rewrite !string_app_assoc.
  - intro Hnone. unfold repoOwner, repoName, githubRepo.
    rewrite Hnone. split; reflexivity.
Qed.

Lemma repository_owner_and_name_witness :
  repoOwner Sample.env0 = Some "octo" /\ repoName Sample.env0 = Some "site".
Proof.
  destruct (repository_owner_and_name Sample.env0) as [Hsplit _].
  destruct (Hsplit "octo" "site" eq_refl eq_refl eq_refl) as [Ho [Hn _]].
  split; [exact Ho | exact Hn].
Defined.

(** * Further properties: what a run calls *)

Lemma run_guards_body (env : Env) (input : Input) (w : World) (status : Z) :
  run env input w status = logAndRethrow (runBody env input w status).
Proof. reflexivity. Qed.

Lemma calls_Promise_all2 {A B : Type} (pa : Promise A) (pb : Promise B) :
  calls (Promise_all2 pa pb) = (calls pa ++ calls pb)%list.
Proof.
  destruct pa as [oa ta], pb as [ob tb]; reflexivity.
Qed.

Section CallsSatisfy.

Variable P : Event -> Prop.

Lemma all_calls_await {A B : Type} (p : Promise A) (k : A -> Promise B) :
  Forall P (calls p) -> (forall a, Forall P (calls (k a))) ->
  Forall P (calls (await p k)).
Proof.
  intros Hp Hk. rewrite calls_await. apply Forall_app. split; [exact Hp|].
  destruct (outcome p); [apply Hk | constructor].
Qed.

Lemma all_calls_request {A : Type} (ev : Event) (answer : option A) (e : Error) :
  P ev -> Forall P (calls (request ev answer e)).
Proof.
  intro H. destruct answer; repeat constructor; exact H.
Qed.

Lemma all_calls_Promise_all {A : Type} (ps : list (Promise A)) :
  (forall p, In p ps -> Forall P (calls p)) -> Forall P (calls (Promise_all ps)).
Proof.
  intro H. rewrite calls_Promise_all.
  induction ps as [|p ps IH]; simpl; [constructor|].
  apply Forall_app. split; [apply H; now left|].
  apply IH. intros q Hq. apply H. now right.
Qed.

Variable env : Env.
Variable input : Input.
Variable w : World.
Variable status : Z.

Hypothesis P_log : forall msg, P (ConsoleLog msg).
Hypothesis P_error : forall e, P (ConsoleLogError e).
Hypothesis P_exists : forall path, P (ExistsSync path).
Hypothesis P_read : forall path, P (ReadFile path).
Hypothesis P_webhook : forall u payload, P (WebhookSend u payload).
Hypothesis P_suite : forall t owner repo head, P (ChecksCreateSuite t owner repo head).
Hypothesis P_check : forall t body, P (ChecksCreate t body).

Lemma all_calls_getGrouped :
  Forall P (calls (getGroupedAssertionResultsByURL env w)).
Proof.
  unfold getGroupedAssertionResultsByURL.
  apply all_calls_await; [repeat constructor; apply P_exists|]. intros _.
  destruct (negb (existsSync w (lhAssertResultsPath env))).
  - apply all_calls_await; [repeat constructor; apply P_log|].
    intros _. constructor.
  - apply all_calls_await; [apply all_calls_request, P_read|]. intro buffer.
    destruct (JSON_parse_results w buffer); constructor.
Qed.

Lemma all_calls_slack (hook : option string) (changesURL : ChangesURL)
  (groupedResults : LHResultsByURL) (gists : list Gist) :
  Forall P (calls (slackNotification w status hook changesURL groupedResults
                     gists)).
Proof.
  unfold slackNotification.
  apply all_calls_await; [repeat constructor; apply P_log|]. intros _.
  apply all_calls_request, P_webhook.
Qed.

Lemma all_calls_github (token : option string) (changesURL : ChangesURL)
  (gists : list Gist) (groupedResults : LHResultsByURL) :
  Forall P (calls (githubNotification env w status token changesURL gists
                     groupedResults)).
Proof.
  unfold githubNotification.
  apply all_calls_await; [repeat constructor; apply P_log|]. intros _.
  apply all_calls_await; [apply all_calls_request, P_suite|]. intros _.
  apply all_calls_request, P_check.
Qed.

Lemma all_calls_dispatch (groupedResults : LHResultsByURL)
  (changesURL : ChangesURL) (gists : list Gist) :
  Forall P (calls (dispatch env input w status groupedResults changesURL gists)).
Proof.
  unfold dispatch.
  destruct (githubEnabled input && slackEnabled input).
  - apply all_calls_await; [|intros _; constructor].
    rewrite calls_Promise_all2. apply Forall_app.
    split; [apply all_calls_slack | apply all_calls_github].
  - destruct (githubEnabled input); [apply all_calls_github|].
    destruct (slackEnabled input); [apply all_calls_slack | constructor].
Qed.

Lemma all_calls_runBody :
  Forall P (calls (getChangesUrl env w (personalGithubToken input))) ->
  Forall P (calls (uploadResultsToGist env w (personalGithubToken input))) ->
  Forall P (calls (runBody env input w status)).
Proof.
  intros Hchanges Hupload.
  unfold runBody. destruct (negb (shouldRunOutput input status));
    [constructor|].
  apply all_calls_await.
  - unfold gather. rewrite calls_Promise_all3.
    apply Forall_app. split; [apply all_calls_getGrouped|].
    apply Forall_app. now split.
  - intros [[groupedResults changesURL] gists]. apply all_calls_dispatch.
Qed.

(** Whatever holds of the calls of the three tasks holds of the calls of
    the whole run. *)
Lemma all_calls_run :
  Forall P (calls (getChangesUrl env w (personalGithubToken input))) ->
  Forall P (calls (uploadResultsToGist env w (personalGithubToken input))) ->
  Forall P (calls (run env input w status)).
Proof.
  intros Hchanges Hupload.
  rewrite run_guards_body, calls_logAndRethrow. apply Forall_app. split.
  - now apply all_calls_runBody.
  - destruct (outcome _); repeat constructor. apply P_error.
Qed.

Hypothesis P_pulls : forall t owner repo, P (PullsList t owner repo).
Hypothesis P_readdir : forall path, P (ReadDir path).
Hypothesis P_list : forall t, P (GistsList t).
Hypothesis P_create : forall t params, P (GistsCreate t params).
Hypothesis P_update : forall t params, P (GistsUpdate t params).

Lemma all_calls_getChangesUrl (token : option string) :
  Forall P (calls (getChangesUrl env w token)).
Proof.
  unfold getChangesUrl.
  destruct (negb (JS.truthy_opt token)); [constructor|].
  apply all_calls_await; [apply all_calls_request, P_pulls|].
  intros pulls. constructor.
Qed.

Lemma all_calls_uploadResultToGist (token : option string) (resultPath : string) :
  Forall P (calls (uploadResultToGist env w token resultPath)).
Proof.
  unfold uploadResultToGist.
  destruct (negb (JS.truthy_opt token) || negb (JS.truthy resultPath));
    [constructor|].
  apply all_calls_await; [apply all_calls_request, P_read|]. intro buffer.
  destruct (JSON_parse_lhr w buffer) as [results|]; [|constructor].
  apply all_calls_await; [apply all_calls_request, P_list|]. intro gists.
  apply all_calls_await; [|intros gist; constructor].
  destruct (JS.find _ gists); apply all_calls_request;
    [apply P_update | apply P_create].
Qed.

Lemma all_calls_uploadResultsToGist (token : option string) :
  Forall P (calls (uploadResultsToGist env w token)).
Proof.
  unfold uploadResultsToGist.
  destruct (negb (JS.truthy_opt token)); [constructor|].
  apply all_calls_await.
  - unfold getLHRNameFromPath.
    apply all_calls_await; [apply all_calls_request, P_readdir|].
    intros dir. constructor.
  - intro names. apply all_calls_Promise_all.
    intros p Hp. apply in_map_iff in Hp. destruct Hp as [name [<- _]].
    apply all_calls_uploadResultToGist.
Qed.

(** A property of every kind of call but the error log holds of all the
    calls of the [try] block. *)
Lemma all_calls_runBody_any : Forall P (calls (runBody env input w status)).
Proof.
  apply all_calls_runBody;
    [apply all_calls_getChangesUrl | apply all_calls_uploadResultsToGist].
Qed.

End CallsSatisfy.

(** X8. Without a personal credential nothing is archived and no pull
    request is looked up: the archive is the single empty reference, the
    change reference is the commit link alone, and no call of the run lists
    the raw results or reaches the gists or the pull requests, whatever the
    status and the channels are. *)
Theorem no_credential_no_archive :
  forall (env : Env) (input : Input) (w : World) (status : Z),
    JS.truthy_opt (personalGithubToken input) = false ->
    uploadResultsToGist env w (personalGithubToken input)
    = (Resolved [emptyGist], [])
    /\ getChangesUrl env w (personalGithubToken input)
       = (Resolved {| sha := "https://github.com/" ++ githubRepo env
                               ++ "/commit/" ++ githubSHA env;
                      pullRequest := EmptyString |}, [])
    /\ (forall ev, In ev (calls (run env input w status)) ->
                   isArchiveCall ev = false)
    /\ (forall groupedResults st,
           forall a, In a (formatAssertResults groupedResults st [emptyGist]) ->
                     a_title_link a = None).
Proof.
  intros env input w status Hno.
  assert (Hup : uploadResultsToGist env w (personalGithubToken input)
                = (Resolved [emptyGist], []))
    by (unfold uploadResultsToGist; now rewrite Hno).
  assert (Hch : getChangesUrl env w (personalGithubToken input)
                = (Resolved {| sha := "https://github.com/" ++ githubRepo env
                                        ++ "/commit/" ++ githubSHA env;
                               pullRequest := EmptyString |}, []))
    by (unfold getChangesUrl; now rewrite Hno).
  split; [exact Hup|]. split; [exact Hch|]. split.
  - assert (Hall : Forall (fun ev => isArchiveCall ev = false)
                     (calls (run env input w status))).
    { apply all_calls_run; try reflexivity.
      - rewrite Hch. constructor.
      - rewrite Hup. constructor. }
    rewrite Forall_forall in Hall. exact Hall.
  - intros gr st a Hin.
    rewrite formatAssertResults_blocks in Hin.
    apply in_flat_map in Hin. destruct Hin as [g [_ [<-|[<-|[]]]]];
      reflexivity.
Qed.

Lemma no_credential_no_archive_witness :
  uploadResultsToGist Sample.env0 Sample.world0 None = (Resolved [emptyGist], []).
Proof.
  destruct (no_credential_no_archive Sample.env0
              {| logLevel := "info";
                 slackWebhookUrl := None;
                 applicationGithubToken := None;
                 personalGithubToken := None;
                 githubNotificationEnabled := false;
                 slackNotificationEnabled := false |}
              Sample.world0 1 eq_refl)
    as [Hup _].
  exact Hup.
Defined.

(** * Further properties: how an upload fails and what it returns *)

(** X9. An upload that cannot read or parse its file never reaches the
    content store: it rejects after the read alone, with the error of the
    file or of the parser; and when the listing of the gists fails, it
    rejects without creating or updating anything. *)
Theorem upload_stops_at_first_failure :
  forall (env : Env) (w : World) (token resultPath : string),
    JS.truthy token = true ->
    JS.truthy resultPath = true ->
    let file := path_join (resultsDirPath env) resultPath in
    (readFile w file = None ->
     uploadResultToGist env w (Some token) resultPath
     = (Rejected (FileError file), [ReadFile file]))
    /\ (forall content,
           readFile w file = Some content ->
           JSON_parse_lhr w content = None ->
           uploadResultToGist env w (Some token) resultPath
           = (Rejected (SyntaxError content), [ReadFile file]))
    /\ (forall content results,
           readFile w file = Some content ->
           JSON_parse_lhr w content = Some results ->
           gists_list w token = None ->
           uploadResultToGist env w (Some token) resultPath
           = (Rejected (RequestError "gists.list"),
              [ReadFile file; GistsList token])).
Proof.
  intros env w token resultPath Ht Hp file.
  unfold uploadResultToGist. simpl JS.truthy_opt. rewrite Ht, Hp.
  simpl negb. simpl orb. cbv iota. fold file.
  split; [|split].
  - intros ->. reflexivity.
  - intros content -> Hj. simpl request. unfold await. now rewrite Hj.
  - intros content results -> Hj Hl. simpl request. unfold await at 1.
    rewrite Hj. simpl JS.get_or. now rewrite Hl.
Qed.

Lemma upload_stops_at_first_failure_witness :
  uploadResultToGist Sample.env0 Sample.world_bad (Some "pat") "lhr-3.json"
  = (Rejected (SyntaxError "{"), [ReadFile "/work/.lighthouseci/lhr-3.json"]).
Proof.
  destruct (upload_stops_at_first_failure Sample.env0 Sample.world_bad "pat"
              "lhr-3.json" eq_refl eq_refl)
    as [_ [Hparse _]].
  exact (Hparse "{" eq_refl eq_refl).
Defined.

Lemma Promise_all_resolved {A : Type} (ps : list (Promise A)) (l : list A) :
  outcome (Promise_all ps) = Resolved l ->
  Forall2 (fun p a => outcome p = Resolved a) ps l.
Proof.
  revert l.
  induction ps as [|[o t] ps IH]; intros l H.
  - injection H as <-. constructor.
  - simpl in H. destruct (Promise_all ps) as [os ts].
    unfold outcome in *. simpl in *.
    destruct o as [a|e]; [|discriminate].
    destruct os as [l'|e]; [|discriminate].
    injection H as <-. constructor; [reflexivity | now apply IH].
Qed.

Lemma Forall2_map_l {A B C : Type} (f : A -> B) (R : B -> C -> Prop)
  (l : list A) (l' : list C) :
  Forall2 R (map f l) l' -> Forall2 (fun a c => R (f a) c) l l'.
Proof.
  revert l'.
  induction l as [|a l IH]; intros l' H; inversion H; subst; constructor; auto.
Qed.

Lemma lhr_names_truthy (dir : list string) :
  Forall (fun name => JS.truthy name = true)
    (map (fun fileName => JS.get_or (match_lhr fileName) EmptyString)
         (filter (fun fileName => match match_lhr fileName with
                                  | Some _ => true
                                  | None => false
                                  end) dir)).
Proof.
  apply Forall_forall. intros name Hin.
  apply in_map_iff in Hin. destruct Hin as [f [Hname Hf]].
  apply filter_In in Hf. destruct Hf as [_ Hm].
  destruct (match_lhr f) as [m|] eqn:E; [|discriminate].
  simpl in Hname. subst m.
  destruct (match_lhr_shape _ _ E) as [Hshape _].
  now apply isLHRName_truthy.
Qed.

(** X10. With a credential, when the archiving resolves it returns one
    reference per raw result name, in the order of the names, and none of
    them is empty: each carries the url read from its file (the empty
    string when the file has none), a non-empty list of id pieces and a
    version. *)
Theorem archive_has_one_reference_per_file :
  forall (env : Env) (w : World) (token : string) (dir : list string)
         (gists : list Gist),
    JS.truthy token = true ->
    readdirSync w (resultsDirPath env) = Some dir ->
    outcome (uploadResultsToGist env w (Some token)) = Resolved gists ->
    exists names,
      outcome (getLHRNameFromPath w (resultsDirPath env)) = Resolved names
      /\ length gists = length names
      /\ Forall2
           (fun name ref =>
              outcome (uploadResultToGist env w (Some token) name) = Resolved ref
              /\ ref <> emptyGist
              /\ exists content results pieces version,
                  readFile w (path_join (resultsDirPath env) name) = Some content
                  /\ JSON_parse_lhr w content = Some results
                  /\ ref = {| gist_url :=
                                Some (JS.get_or (requestedUrl results) EmptyString);
                              gist_id := Some pieces;
                              gist_sha := Some version |}
                  /\ pieces <> [])
           names gists.
Proof.
  intros env w token dir gists Ht Hdir Hres.
  pose proof (lhr_names_truthy dir) as Hshape.
  set (names := map (fun fileName => JS.get_or (match_lhr fileName) EmptyString)
                    (filter (fun fileName => match match_lhr fileName with
                                             | Some _ => true
                                             | None => false
                                             end) dir)) in *.
  assert (Hnames : getLHRNameFromPath w (resultsDirPath env)
                   = (Resolved names, [ReadDir (resultsDirPath env)]))
    by (unfold getLHRNameFromPath; now rewrite Hdir).
  exists names.
  split; [now rewrite Hnames|].
  revert Hres. unfold uploadResultsToGist. simpl JS.truthy_opt.
  rewrite Ht. simpl negb. cbv iota.
  rewrite Hnames. unfold await. 
  destruct (Promise_all _) as [o t] eqn:Hall. unfold outcome. simpl.
  intros ->.
  assert (Hout : outcome (Promise_all
                            (map (fun name =>
                                    uploadResultToGist env w (Some token) name)
                                 names)) = Resolved gists)
    by now rewrite Hall.
  apply Promise_all_resolved, Forall2_map_l in Hout.
  split; [symmetry; now apply (Forall2_length Hout)|].
  clear Hall Hnames. clearbody names.
  induction Hout as [|name ref names gists Hone Hrest IH]; [constructor|].
  inversion Hshape as [|? ? Hname Hshape']; subst.
  constructor; [|now apply IH].
  split; [exact Hone|].
  destruct (upload_resolved_inv env w token name ref Ht Hname Hone)
    as [content [results [entries [Hr [Hj Hl]]]]].
  assert (Href : exists pieces version,
             ref = {| gist_url :=
                        Some (JS.get_or (requestedUrl results) EmptyString);
                      gist_id := Some pieces;
                      gist_sha := Some version |}
             /\ pieces <> []).
  { revert Hone.
    rewrite (upload_steps env w token name content results entries
               Ht Hname Hr Hj Hl).
    cbv zeta.
    destruct (JS.find _ entries) as [entry|].
    - destruct (gists_update w token _) as [gist|]; [|discriminate].
      intros [= <-]. eexists. eexists. split; [reflexivity|].
      apply split_not_nil.
    - destruct (gists_create w token _) as [gist|]; [|discriminate].
      intros [= <-]. eexists. eexists. split; [reflexivity|].
      apply split_not_nil. }
  destruct Href as [pieces [version [-> Hpieces]]].
  split; [discriminate|].
  now exists content, results, pieces, version.
Qed.

Lemma archive_has_one_reference_per_file_witness :
  exists names,
    outcome (getLHRNameFromPath Sample.world0 (resultsDirPath Sample.env0))
      = Resolved names
    /\ length [{| gist_url := Some "https://example.com/a";
                  gist_id := Some ["g42"];
                  gist_sha := Some "v2" |}] = length names.
Proof.
  destruct (archive_has_one_reference_per_file Sample.env0 Sample.world0 "pat"
              ["lhr-1.json"; "readme.md"]
              [{| gist_url := Some "https://example.com/a";
                  gist_id := Some ["g42"];
                  gist_sha := Some "v2" |}]
              eq_refl eq_refl eq_refl)
    as [names [Hnames [Hlen _]]].
  exists names. split; [exact Hnames | exact Hlen].
Defined.

(** * Further properties: the channels *)

Lemma slackNotification_exact (w : World) (status : Z) (hook : option string)
  (changesURL : ChangesURL) (groupedResults : LHResultsByURL)
  (gists : list Gist) :
  slackNotification w status hook changesURL groupedResults gists
  = (if webhook_send w (JS.get_or hook EmptyString)
          (slackHeader status changesURL
             :: formatAssertResults groupedResults status gists)
     then Resolved tt
     else Rejected (RequestError "webhook.send"),
     [ConsoleLog "Running Slack notification";
      WebhookSend (JS.get_or hook EmptyString)
        (slackHeader status changesURL
           :: formatAssertResults groupedResults status gists)]).
Proof.
  unfold slackNotification, slackHeader, reportTitle, await, emit, request.
  destruct (webhook_send w _ _); reflexivity.
Qed.

Lemma githubNotification_exact (env : Env) (w : World) (status : Z)
  (token : option string) (changesURL : ChangesURL) (gists : list Gist)
  (groupedResults : LHResultsByURL) :
  githubNotification env w status token changesURL gists groupedResults
  = if checks_createSuite w (JS.get_or token EmptyString) (repoOwner env)
         (repoName env) (githubSHA env)
    then
      (if checks_create w (JS.get_or token EmptyString)
            (checkBodyOf env status changesURL gists groupedResults)
       then Resolved tt
       else Rejected (RequestError "checks.create"),
       [ConsoleLog "Running Github notification";
        ChecksCreateSuite (JS.get_or token EmptyString) (repoOwner env)
          (repoName env) (githubSHA env);
        ChecksCreate (JS.get_or token EmptyString)
          (checkBodyOf env status changesURL gists groupedResults)])
    else
      (Rejected (RequestError "checks.createSuite"),
       [ConsoleLog "Running Github notification";
        ChecksCreateSuite (JS.get_or token EmptyString) (repoOwner env)
          (repoName env) (githubSHA env)]).
Proof.
  unfold githubNotification, checkBodyOf, reportTitle, await, emit, request.
  destruct (checks_createSuite w _ _ _ _); [|reflexivity].
  destruct (checks_create w _ _); reflexivity.
Qed.

(** X11. The check run is created only after its suite: when the creation
    of the suite fails, [githubNotification] rejects with that failure and
    never asks for the check run; when it succeeds, the check run is asked
    for once, for the commit of the run, completed, with the conclusion
    ["success"] exactly when the status is zero, and the notification
    resolves exactly when that request does. *)
Theorem check_run_follows_suite :
  forall (env : Env) (w : World) (status : Z) (token : option string)
         (changesURL : ChangesURL) (gists : list Gist)
         (groupedResults : LHResultsByURL),
    let t := JS.get_or token EmptyString in
    let p := githubNotification env w status token changesURL gists
               groupedResults in
    (checks_createSuite w t (repoOwner env) (repoName env) (githubSHA env)
       = false ->
     outcome p = Rejected (RequestError "checks.createSuite")
     /\ forall t' body, ~ In (ChecksCreate t' body) (calls p))
    /\ (checks_createSuite w t (repoOwner env) (repoName env) (githubSHA env)
          = true ->
        exists body,
          calls p = [ConsoleLog "Running Github notification";
                     ChecksCreateSuite t (repoOwner env) (repoName env)
                       (githubSHA env);
                     ChecksCreate t body]
          /\ resolves p = checks_create w t body
          /\ cb_head_sha body = githubSHA env
          /\ cb_status body = "completed"
          /\ cb_name body = "Lighthouse Report"
          /\ (cb_conclusion body = "success" <-> status = 0%Z)
          /\ cb_output body
             = getSummaryMarkdownOutput status changesURL groupedResults gists).
Proof.
  intros env w status token changesURL gists groupedResults t p.
  subst p t. rewrite githubNotification_exact.
  split; intros ->.
  - split; [reflexivity|].
    intros t' body [H|[H|[]]]; discriminate.
  - exists (checkBodyOf env status changesURL gists groupedResults).
    split; [reflexivity|].
    split; [unfold resolves, outcome; simpl; now destruct (checks_create _ _ _)|].
    repeat split; simpl.
    + unfold statusConclusion. destruct (Z.eqb_spec status 0); [auto | discriminate].
    + unfold statusConclusion. intros ->. reflexivity.
Qed.

Lemma check_run_follows_suite_witness :
  exists body,
    calls (githubNotification Sample.env0 Sample.world0 0 (Some "app-token")
             {| sha := "https://github.com/octo/site/commit/abc123";
                pullRequest := EmptyString |} [] [])
    = [ConsoleLog "Running Github notification";
       ChecksCreateSuite "app-token" (Some "octo") (Some "site") "abc123";
       ChecksCreate "app-token" body]
    /\ cb_conclusion body = "success".
Proof.
  destruct (check_run_follows_suite Sample.env0 Sample.world0 0
              (Some "app-token")
              {| sha := "https://github.com/octo/site/commit/abc123";
                 pullRequest := EmptyString |} [] [])
    as [_ Hok].
  destruct (Hok eq_refl) as [body [Hcalls [_ [_ [_ [_ [Hconcl _]]]]]]].
  exists body. split; [exact Hcalls|]. now apply Hconcl.
Defined.

Lemma calls_dispatch (env : Env) (input : Input) (w : World) (status : Z)
  (groupedResults : LHResultsByURL) (changesURL : ChangesURL)
  (gists : list Gist) :
  calls (dispatch env input w status groupedResults changesURL gists)
  = ((if slackEnabled input
      then calls (slackNotification w status (slackWebhookUrl input) changesURL
                    groupedResults gists)
      else [])
     ++ (if githubEnabled input
         then calls (githubNotification env w status
                       (applicationGithubToken input) changesURL gists
                       groupedResults)
         else []))%list.
Proof.
  unfold dispatch.
  destruct (githubEnabled input), (slackEnabled input); simpl.
  - rewrite calls_await, calls_Promise_all2.
    destruct (outcome _); simpl; now rewrite app_nil_r.
  - reflexivity.
  - now rewrite app_nil_r.
  - reflexivity.
Qed.

Lemma resolves_dispatch (env : Env) (input : Input) (w : World) (status : Z)
  (groupedResults : LHResultsByURL) (changesURL : ChangesURL)
  (gists : list Gist) :
  resolves (dispatch env input w status groupedResults changesURL gists)
  = (negb (slackEnabled input)
     || resolves (slackNotification w status (slackWebhookUrl input) changesURL
                    groupedResults gists))
    && (negb (githubEnabled input)
        || resolves (githubNotification env w status
                       (applicationGithubToken input) changesURL gists
                       groupedResults)).
Proof.
  unfold dispatch.
  destruct (githubEnabled input), (slackEnabled input); simpl.
  - rewrite resolves_await.
    pose proof (resolves_Promise_all2
                  (slackNotification w status (slackWebhookUrl input) changesURL
                     groupedResults gists)
                  (githubNotification env w status
                     (applicationGithubToken input) changesURL gists
                     groupedResults)) as H.
    unfold resolves at 1 in H.
    destruct (outcome (Promise_all2 _ _)); now rewrite <- H.
  - reflexivity.
  - now rewrite Bool.andb_true_r.
  - reflexivity.
Qed.

(** Where a call of a channel adapter in a run comes from. *)
Lemma channel_call_origin (env : Env) (input : Input) (w : World) (status : Z)
  (ev : Event) :
  isChannelCall ev = true ->
  In ev (calls (run env input w status)) ->
  shouldRunOutput input status = true
  /\ exists groupedResults changesURL gists,
      outcome (gather env input w) = Resolved (groupedResults, changesURL, gists)
      /\ In ev (calls (dispatch env input w status groupedResults changesURL
                         gists)).
Proof.
  intros Hev Hin.
  rewrite run_guards_body, calls_logAndRethrow in Hin.
  apply in_app_or in Hin. destruct Hin as [Hin|Hin].
  - unfold runBody in Hin.
    destruct (shouldRunOutput input status); simpl in Hin; [|contradiction].
    split; [reflexivity|].
    rewrite calls_await in Hin. apply in_app_or in Hin.
    destruct Hin as [Hin|Hin].
    + pose proof (quiet_gather env w input) as Hq.
      unfold quiet in Hq. rewrite Forall_forall in Hq.
      rewrite (Hq ev Hin) in Hev. discriminate.
    + destruct (outcome (gather env input w))
        as [[[groupedResults changesURL] gists]|e]; [|contradiction].
      now exists groupedResults, changesURL, gists.
  - destruct (outcome _); [contradiction|].
    destruct Hin as [<-|[]]. discriminate.
Qed.

(** X12. A channel is contacted only when it is enabled: a webhook
    message is sent in a run only if the gate is open, the three tasks have
    resolved and the Slack channel is switched on with a webhook url, and
    then to that url and with the header followed by the formatted results
    of the gathered values; a check run or a check suite is requested only
    if the GitHub channel is switched on with the application credential,
    and with that credential. *)
Theorem channels_only_when_enabled :
  forall (env : Env) (input : Input) (w : World) (status : Z),
    (forall u payload,
        In (WebhookSend u payload) (calls (run env input w status)) ->
        shouldRunOutput input status = true
        /\ slackEnabled input = true
        /\ slackWebhookUrl input = Some u
        /\ exists groupedResults changesURL gists,
            outcome (gather env input w)
              = Resolved (groupedResults, changesURL, gists)
            /\ payload = slackHeader status changesURL
                           :: formatAssertResults groupedResults status gists)
    /\ (forall t body,
           In (ChecksCreate t body) (calls (run env input w status)) ->
           shouldRunOutput input status = true
           /\ githubEnabled input = true
           /\ applicationGithubToken input = Some t
           /\ exists groupedResults changesURL gists,
               outcome (gather env input w)
                 = Resolved (groupedResults, changesURL, gists)
               /\ body = checkBodyOf env status changesURL gists groupedResults)
    /\ (forall t owner repo head,
           In (ChecksCreateSuite t owner repo head)
              (calls (run env input w status)) ->
           shouldRunOutput input status = true
           /\ githubEnabled input = true
           /\ applicationGithubToken input = Some t
           /\ head = githubSHA env).
Proof.
  intros env input w status.
  assert (Hslack : forall o, JS.truthy_opt o = true ->
                             o = Some (JS.get_or o EmptyString))
    by (intros [s|] H; [reflexivity | discriminate]).
  split; [|split].
  - intros u payload Hin.
    destruct (channel_call_origin env input w status (WebhookSend u payload) eq_refl
              Hin)
      as [Hgate [groups [changes [gists [Hg Hd]]]]].
    split; [exact Hgate|].
    rewrite calls_dispatch in Hd. apply in_app_or in Hd.
    destruct Hd as [Hd|Hd].
    + destruct (slackEnabled input) eqn:Hs; [|contradiction].
      rewrite slackNotification_exact in Hd.
      destruct Hd as [Hd|[Hd|[]]]; [discriminate|].
      injection Hd as <- <-.
      split; [reflexivity|]. split.
      * apply Hslack. unfold slackEnabled in Hs.
        now apply Bool.andb_true_iff in Hs.
      * now exists groups, changes, gists.
    + destruct (githubEnabled input); [|contradiction].
      rewrite githubNotification_exact in Hd.
      destruct (checks_createSuite w _ _ _ _);
        simpl in Hd; intuition discriminate.
  - intros t body Hin.
    destruct (channel_call_origin env input w status (ChecksCreate t body) eq_refl
              Hin)
      as [Hgate [groups [changes [gists [Hg Hd]]]]].
    split; [exact Hgate|].
    rewrite calls_dispatch in Hd. apply in_app_or in Hd.
    destruct Hd as [Hd|Hd].
    + destruct (slackEnabled input); [|contradiction].
      rewrite slackNotification_exact in Hd.
      simpl in Hd; intuition discriminate.
    + destruct (githubEnabled input) eqn:Hs; [|contradiction].
      rewrite githubNotification_exact in Hd.
      destruct (checks_createSuite w _ _ _ _);
        simpl in Hd; [|intuition discriminate].
      destruct Hd as [Hd|[Hd|[Hd|[]]]]; try discriminate.
      injection Hd as <- <-.
      split; [reflexivity|]. split.
      * apply Hslack. unfold githubEnabled in Hs.
        now apply Bool.andb_true_iff in Hs.
      * now exists groups, changes, gists.
  - intros t owner repo head Hin.
    destruct (channel_call_origin env input w status (ChecksCreateSuite t owner repo head) eq_refl
              Hin)
      as [Hgate [groups [changes [gists [Hg Hd]]]]].
    split; [exact Hgate|].
    rewrite calls_dispatch in Hd. apply in_app_or in Hd.
    destruct Hd as [Hd|Hd].
    + destruct (slackEnabled input); [|contradiction].
      rewrite slackNotification_exact in Hd.
      simpl in Hd; intuition discriminate.
    + destruct (githubEnabled input) eqn:Hs; [|contradiction].
      rewrite githubNotification_exact in Hd.
      assert (Hsuite : ChecksCreateSuite (JS.get_or (applicationGithubToken input)
                                            EmptyString)
                         (repoOwner env) (repoName env) (githubSHA env)
                       = ChecksCreateSuite t owner repo head).
      { destruct (checks_createSuite w _ _ _ _); simpl in Hd;
          intuition discriminate. }
      injection Hsuite as <- _ _ <-.
      split; [reflexivity|]. split; [|reflexivity].
      apply Hslack. unfold githubEnabled in Hs.
      now apply Bool.andb_true_iff in Hs.
Qed.

Lemma channels_only_when_enabled_witness :
  slackEnabled Sample.input0 = true
  /\ slackWebhookUrl Sample.input0 = Some "https://hooks.example/T".
Proof.
  destruct (channels_only_when_enabled Sample.env0 Sample.input0
              Sample.world_empty 1)
    as [Hslack _].
  destruct (Hslack "https://hooks.example/T"
              (slackHeader 1
                 {| sha := "https://github.com/octo/site/commit/abc123";
                    pullRequest := "https://github.com/octo/site/pull/7" |}
                 :: formatAssertResults [] 1 [])
              ltac:(vm_compute; auto 10))
    as [_ [Hen [Hurl _]]].
  split; [exact Hen | exact Hurl].
Defined.

(** * Further properties: how a run ends *)

(** X13. A failure while gathering is fatal and silent towards the
    channels: when the gate is open and one of the three tasks rejects, the
    run rejects, the error it rejects with is logged, and no call of the run
    is a call of a channel adapter.  This is the case when the file of
    assertion results exists but does not parse. *)
Theorem gathering_failure_is_fatal :
  forall (env : Env) (input : Input) (w : World) (status : Z),
    shouldRunOutput input status = true ->
    (resolves (getGroupedAssertionResultsByURL env w) = false
     \/ resolves (getChangesUrl env w (personalGithubToken input)) = false
     \/ resolves (uploadResultsToGist env w (personalGithubToken input)) = false ->
     resolves (run env input w status) = false
     /\ (exists e,
           outcome (run env input w status) = Rejected e
           /\ In (ConsoleLogError e) (calls (run env input w status)))
     /\ forall ev, In ev (calls (run env input w status)) ->
                   isChannelCall ev = false)
    /\ (forall text,
           existsSync w (lhAssertResultsPath env) = true ->
           readFile w (lhAssertResultsPath env) = Some text ->
           JSON_parse_results w text = None ->
           resolves (getGroupedAssertionResultsByURL env w) = false).
Proof.
  intros env input w status Hgate. split.
  - intro Hone.
    assert (Hrej : resolves (gather env input w) = false).
    { unfold gather. rewrite resolves_Promise_all3.
      destruct Hone as [-> | [-> | ->]]; [reflexivity | |];
        [now rewrite Bool.andb_false_r | apply Bool.andb_false_r]. }
    destruct (gather env input w) as [[triple|e] t] eqn:Hg; [discriminate|].
    assert (Hrun : run env input w status
                   = (Rejected e, (t ++ [ConsoleLogError e])%list)).
    { rewrite run_guards_body. unfold runBody.
      rewrite Hgate, Hg. reflexivity. }
    rewrite Hrun. split; [reflexivity|]. split.
    + exists e. split; [reflexivity|].
      unfold calls. simpl. apply in_or_app. right. now left.
    + intros ev Hin. unfold calls in Hin. simpl in Hin.
      apply in_app_or in Hin. destruct Hin as [Hin|[<-|[]]]; [|reflexivity].
      pose proof (quiet_gather env w input) as Hq.
      unfold quiet in Hq. rewrite Forall_forall in Hq. apply Hq.
      now rewrite Hg.
  - intros text Hex Hread Hparse.
    unfold getGroupedAssertionResultsByURL, resolves, outcome, await, emit,
      request, reject.
    now rewrite Hex, Hread, Hparse.
Qed.

Lemma gathering_failure_is_fatal_witness :
  resolves (run Sample.env0 Sample.input0 Sample.world_bad 1) = false
  /\ In (ConsoleLogError (SyntaxError "{"))
        (calls (run Sample.env0 Sample.input0 Sample.world_bad 1)).
Proof.
  destruct (gathering_failure_is_fatal Sample.env0 Sample.input0
              Sample.world_bad 1 eq_refl)
    as [Hrej _].
  destruct (Hrej (or_intror (or_intror eq_refl))) as [Hrun [[e [He Hlog]] _]].
  split; [exact Hrun|].
  vm_compute in He. injection He as <-. exact Hlog.
Defined.

(** X14. Once the three tasks have resolved, a run whose gate is open
    resolves exactly when every enabled channel accepts what it is sent:
    the webhook message for Slack, the check suite and then the check run
    for GitHub.  A channel that is not enabled cannot make the run fail. *)
Theorem run_resolves_iff_channels_accept :
  forall (env : Env) (input : Input) (w : World) (status : Z)
         (groupedResults : LHResultsByURL) (changesURL : ChangesURL)
         (gists : list Gist),
    shouldRunOutput input status = true ->
    outcome (gather env input w) = Resolved (groupedResults, changesURL, gists) ->
    resolves (run env input w status)
    = (negb (slackEnabled input)
       || webhook_send w (JS.get_or (slackWebhookUrl input) EmptyString)
            (slackHeader status changesURL
               :: formatAssertResults groupedResults status gists))
      && (negb (githubEnabled input)
          || (checks_createSuite w
                (JS.get_or (applicationGithubToken input) EmptyString)
                (repoOwner env) (repoName env) (githubSHA env)
              && checks_create w
                   (JS.get_or (applicationGithubToken input) EmptyString)
                   (checkBodyOf env status changesURL gists groupedResults))).
Proof.
  intros env input w status groups changes gists Hgate Hg.
  rewrite run_guards_body, resolves_logAndRethrow.
  unfold runBody. rewrite Hgate. simpl negb. cbv iota.
  rewrite resolves_await, Hg, resolves_dispatch.
  rewrite slackNotification_exact, githubNotification_exact.
  f_equal; f_equal.
  - unfold resolves, outcome. simpl. now destruct (webhook_send w _ _).
  - destruct (checks_createSuite w _ _ _ _); [|reflexivity].
    unfold resolves, outcome. simpl. now destruct (checks_create w _ _).
Qed.

Lemma run_resolves_iff_channels_accept_witness :
  resolves (run Sample.env0 Sample.input0 Sample.world_empty 1) = true.
Proof.
  rewrite (run_resolves_iff_channels_accept Sample.env0 Sample.input0
             Sample.world_empty 1 []
             {| sha := "https://github.com/octo/site/commit/abc123";
                pullRequest := "https://github.com/octo/site/pull/7" |}
             [] eq_refl eq_refl).
  reflexivity.
Defined.

Lemma filter_none {A : Type} (p : A -> bool) (l : list A) :
  Forall (fun a => p a = false) l -> filter p l = [].
Proof.
  induction 1 as [|a l Ha _ IH]; simpl; [reflexivity|].
  now rewrite Ha.
Qed.

(** X15. A run that rejects logs the error it rejects with, and logs no
    other error: exactly one of its calls is an error log.  A run that
    resolves logs no error. *)
Theorem rejection_is_logged_once :
  forall (env : Env) (input : Input) (w : World) (status : Z),
    (forall e,
        outcome (run env input w status) = Rejected e ->
        In (ConsoleLogError e) (calls (run env input w status))
        /\ filter isErrorLog (calls (run env input w status))
           = [ConsoleLogError e])
    /\ (resolves (run env input w status) = true ->
        forall ev, In ev (calls (run env input w status)) ->
                   isErrorLog ev = false).
Proof.
  intros env input w status.
  assert (Hbody : Forall (fun ev => isErrorLog ev = false)
                    (calls (runBody env input w status)))
    by (apply all_calls_runBody_any; reflexivity).
  rewrite run_guards_body.
  destruct (runBody env input w status) as [[[]|e0] t];
    unfold calls, outcome, resolves in *; simpl in *; split.
  - discriminate.
  - intros _. now apply Forall_forall.
  - intros e [= <-]. split.
    + apply in_or_app. right. now left.
    + rewrite filter_app, (filter_none _ _ Hbody). reflexivity.
  - discriminate.
Qed.

Lemma rejection_is_logged_once_witness :
  filter isErrorLog (calls (run Sample.env0 Sample.input0 Sample.world_bad 1))
  = [ConsoleLogError (SyntaxError "{")].
Proof.
  destruct (rejection_is_logged_once Sample.env0 Sample.input0
              Sample.world_bad 1)
    as [Hrej _].
  destruct (Hrej (SyntaxError "{") eq_refl) as [_ Hcount].
  exact Hcount.
Defined.

(** * Further properties: the change reference *)

(** X16. Among several pull requests whose head is the current commit
    the first listed one decides: its address is the pull-request link, and
    when it has no address the link is empty, whatever the later ones
    are. *)
Theorem first_pull_request_wins :
  forall (env : Env) (w : World) (token : string) (before after : list Pull)
         (pull : Pull),
    JS.truthy token = true ->
    pulls_list w token (repoOwner env) (repoName env)
      = Some (before ++ pull :: after)%list ->
    head_sha pull = Some (githubSHA env) ->
    (forall other, In other before -> head_sha other <> Some (githubSHA env)) ->
    getChangesUrl env w (Some token)
    = (Resolved {| sha := "https://github.com/" ++ githubRepo env
                            ++ "/commit/" ++ githubSHA env;
                   pullRequest := JS.get_or (html_url pull) EmptyString |},
       [PullsList token (repoOwner env) (repoName env)]).
Proof.
  intros env w token before after pull Ht Hlist Hhead Hbefore.
  assert (Hfind : JS.find (headIs (githubSHA env)) (before ++ pull :: after)
                  = Some pull).
  { clear Hlist. unfold JS.find.
    induction before as [|other before IH]; simpl.
    - unfold headIs. now rewrite Hhead, String.eqb_refl.
    - assert (Hother : headIs (githubSHA env) other = false).
      { unfold headIs.
        destruct (head_sha other) as [s|] eqn:E; [|reflexivity].
        destruct (String.eqb_spec s (githubSHA env)) as [->|]; [|reflexivity].
        exfalso. apply (Hbefore other); [now left | exact E]. }
      rewrite Hother. apply IH.
      intros o Ho. apply Hbefore. now right. }
  unfold getChangesUrl. simpl JS.truthy_opt. rewrite Ht. simpl negb.
  cbv iota zeta. cbn [JS.get_or]. rewrite Hlist.
  unfold await, request, resolve. rewrite Hfind. reflexivity.
Qed.

Lemma first_pull_request_wins_witness :
  outcome (getChangesUrl Sample.env0
             (Sample.world [] []
                [{| head_sha := Some "fff000"; html_url := Some "https://x/1" |};
                 Sample.pull0;
                 {| head_sha := Some "abc123"; html_url := Some "https://x/3" |}])
             (Some "pat"))
  = Resolved {| sha := "https://github.com/octo/site/commit/abc123";
                pullRequest := "https://github.com/octo/site/pull/7" |}.
Proof.
  rewrite (first_pull_request_wins Sample.env0
             (Sample.world [] []
                [{| head_sha := Some "fff000"; html_url := Some "https://x/1" |};
                 Sample.pull0;
                 {| head_sha := Some "abc123"; html_url := Some "https://x/3" |}])
             "pat"
             [{| head_sha := Some "fff000"; html_url := Some "https://x/1" |}]
             [{| head_sha := Some "abc123"; html_url := Some "https://x/3" |}]
             Sample.pull0 eq_refl eq_refl eq_refl).
  - reflexivity.
  - intros other [<-|[]]. discriminate.
Defined.

(** * Further properties: the Markdown summary *)

Lemma trimEnd_keeps (s : string) (c : ascii) :
  JS.is_space c = false ->
  JS.trimEnd (s ++ String c EmptyString) = s ++ String c EmptyString.
Proof.
  intro Hc.
  induction s as [|x s IH]; cbn [append JS.trimEnd].
  - now rewrite Hc.
  - rewrite IH. now destruct s.
Qed.

Lemma trim_keeps (c : ascii) (s : string) (d : ascii) :
  JS.is_space c = false ->
  JS.is_space d = false ->
  JS.trim (String c (s ++ String d EmptyString))
  = String c (s ++ String d EmptyString).
Proof.
  intros Hc Hd. unfold JS.trim. cbn [JS.trimStart]. rewrite Hc.
  change (String c (s ++ String d EmptyString))
    with (String c s ++ String d EmptyString).
  now apply trimEnd_keeps.
Qed.

Lemma trim_leading_LF (c : ascii) (s : string) (d : ascii) :
  JS.is_space c = false ->
  JS.is_space d = false ->
  JS.trim (JS.LF ++ String c (s ++ String d EmptyString))
  = String c (s ++ String d EmptyString).
Proof.
  intros Hc Hd. unfold JS.trim.
  change (JS.trimStart (JS.LF ++ String c (s ++ String d EmptyString)))
    with (JS.trimStart (String c (s ++ String d EmptyString))).
  now apply trim_keeps.
Qed.

Lemma join_snoc (sep : string) (l : list string) (a : string) :
  JS.join sep (l ++ [a])
  = (match l with
     | [] => EmptyString
     | _ :: _ => JS.join sep l ++ sep
     end) ++ a.
Proof.
  unfold JS.join.
  induction l as [|x l IH]; [reflexivity|].
  destruct l as [|y l].
  - simpl. now rewrite string_app_assoc.
  - change (String.concat sep ((x :: y :: l) ++ [a]))
      with (x ++ sep ++ String.concat sep ((y :: l) ++ [a])).
    rewrite IH.
    change (String.concat sep (x :: y :: l))
      with (x ++ sep ++ String.concat sep (y :: l)).
    now rewrite !string_app_assoc.
Qed.

(** Two chains of appends that differ in their bracketing only. *)
Ltac same_chain :=
  repeat rewrite string_app_assoc; cbn [append];
  repeat rewrite string_app_assoc; reflexivity.

(** The Markdown line of a rendered result. *)
Lemma field_line_verbatim (res : LHResult) :
  JS.trim ("**" ++ f_title (formatResult res) ++ "**" ++ JS.LF
             ++ f_value (formatResult res))
  = "**" ++ auditId res ++ "." ++ auditProperty res ++ "**" ++ JS.LF
      ++ auditTitle res ++ " " ++ JS.LF ++ " _Expected " ++ expected res ++ " "
      ++ (if String.eqb (operator res) "<=" then " less then"
          else " greater than")
      ++ " actual " ++ actual res ++ "_".
Proof.
  cbn [formatResult f_title f_value].
  set (phrase := if String.eqb (operator res) "<=" then " less then"
                 else " greater than").
  assert (E : "**" ++ (auditId res ++ "." ++ auditProperty res) ++ "**" ++ JS.LF
                ++ auditTitle res ++ " " ++ JS.LF ++ " _Expected "
                ++ expected res ++ " " ++ phrase ++ " actual " ++ actual res
                ++ "_"
              = String "*"
                  (("*" ++ auditId res ++ "." ++ auditProperty res ++ "**"
                      ++ JS.LF ++ auditTitle res ++ " " ++ JS.LF
                      ++ " _Expected " ++ expected res ++ " " ++ phrase
                      ++ " actual " ++ actual res)
                     ++ "_")).
  { same_chain. }
  rewrite E, (trim_keeps "*" _ "_" eq_refl eq_refl).
  same_chain.
Qed.

(** X17. In the Markdown summary, the item of a group that has results
    is its heading, a line per rendered result, copied character for
    character, and the line of the ellipsis; nothing is lost to the
    trimming.  The item of a report link is a Markdown link behind its
    title, and the item of the empty object is the empty text. *)
Theorem markdown_of_group :
  forall (color : string) (g : list LHResult),
    g <> [] ->
    JS.trim (resultTitle (sectionOf color g) ++ JS.LF
               ++ fieldsTemplate (sectionOf color g))
    = "### " ++ JS.nat_toString (length g + 1) ++ " result(s) for "
        ++ resultUrlOf g ++ JS.LF
        ++ JS.join JS.LF
             (map (fun res =>
                     "**" ++ auditId res ++ "." ++ auditProperty res ++ "**"
                       ++ JS.LF ++ f_value (formatResult res))
                  (firstn 2 g)
              ++ ["**...**"])
    /\ (forall gist u,
           gist_url gist = Some u ->
           JS.trim (resultTitle (reportUrlFieldOf color gist) ++ JS.LF
                      ++ fieldsTemplate (reportUrlFieldOf color gist))
           = "[View Detailed Lighthouse Report]("
               ++ "https://googlechrome.github.io/lighthouse/viewer/?gist="
               ++ JS.template JS.array_toString (gist_id gist) ++ "/"
               ++ JS.template (fun s => s) (gist_sha gist) ++ ")")
    /\ JS.trim (resultTitle emptyAttachment ++ JS.LF
                  ++ fieldsTemplate emptyAttachment) = EmptyString.
Proof.
  intros color g Hg. split; [|split].
  - assert (Hlines :
              map (fun field =>
                     JS.trim ("**" ++ f_title field ++ "**" ++ JS.LF
                                ++ f_value field))
                  (fieldsOf g)
              = (map (fun res =>
                        ("**" ++ auditId res ++ "." ++ auditProperty res ++ "**"
                           ++ JS.LF ++ f_value (formatResult res))%string)
                     (firstn 2 g)
                 ++ ["**...**"])%list).
    { unfold fieldsOf.
      assert (Hpos : (0 <? length (firstn 2 (map formatResult g)))%nat = true)
        by (destruct g; [congruence | reflexivity]).
      rewrite Hpos, firstn_map, map_app, map_map. f_equal.
      apply map_ext. intro res. apply field_line_verbatim. }
    unfold fieldsTemplate, resultTitle.
    cbn [sectionOf a_fields a_text JS.truthy_opt JS.template].
    assert (Htext : JS.truthy (JS.nat_toString (length g + 1)
                                 ++ " result(s) for " ++ resultUrlOf g) = true).
    { destruct (JS.nat_toString (length g + 1)) eqn:E; [|reflexivity].
      reflexivity. }
    rewrite Htext, Hlines, join_snoc.
    set (lines := map _ (firstn 2 g)).
    set (before := match lines with
                   | [] => EmptyString
                   | _ :: _ => JS.join JS.LF lines ++ JS.LF
                   end).
    assert (E : ("### " ++ JS.nat_toString (length g + 1) ++ " result(s) for "
                   ++ resultUrlOf g) ++ JS.LF ++ before ++ "**...**"
                = String "#"
                    (("## " ++ JS.nat_toString (length g + 1)
                        ++ " result(s) for " ++ resultUrlOf g ++ JS.LF
                        ++ before ++ "**...*")
                       ++ "*")).
    { same_chain. }
    rewrite E, (trim_keeps "#" _ "*" eq_refl eq_refl).
    same_chain.
  - intros gist u Hu.
    unfold reportUrlFieldOf.
    rewrite (getLHReportURL_of_reference gist u Hu).
    unfold viewerURL.
    cbn [append JS.truthy].
    unfold fieldsTemplate, resultTitle.
    cbn [a_fields a_text a_title a_title_link JS.truthy_opt JS.template
           JS.truthy append].
    set (address := JS.template JS.array_toString (gist_id gist) ++ "/"
                      ++ JS.template (fun s => s) (gist_sha gist)).
    change (EmptyString ++ JS.LF ++ ?x) with (JS.LF ++ x).
    match goal with
    | |- JS.trim (JS.LF ++ String ?c ?body) = _ =>
        assert (E : body
                    = ("View Detailed Lighthouse Report]("
                         ++ "https://googlechrome.github.io/lighthouse/viewer/?gist="
                         ++ address)
                        ++ ")")
          by (subst address; same_chain)
    end.
    rewrite E, (trim_leading_LF "[" _ ")" eq_refl eq_refl).
    subst address. same_chain.
  - reflexivity.
Qed.

Lemma markdown_of_group_witness :
  JS.trim (resultTitle (sectionOf "danger" [Sample.resGe]) ++ JS.LF
             ++ fieldsTemplate (sectionOf "danger" [Sample.resGe]))
  = "### 2 result(s) for https://example.com/a" ++ JS.LF
      ++ "**categories.performance**" ++ JS.LF ++ "Performance " ++ JS.LF
      ++ " _Expected 0.9  greater than actual 0.4_" ++ JS.LF ++ "**...**".
Proof.
  destruct (markdown_of_group "danger" [Sample.resGe] ltac:(discriminate))
    as [Hitem _].
  rewrite Hitem. reflexivity.
Defined.

(** * Further properties: from the archive to the report link *)

Lemma upload_resolved_answer (env : Env) (w : World) (token resultPath : string)
  (ref : Gist) :
  JS.truthy token = true ->
  JS.truthy resultPath = true ->
  outcome (uploadResultToGist env w (Some token) resultPath) = Resolved ref ->
  exists params gist,
    (gists_update w token params = Some gist
     \/ gists_create w token params = Some gist)
    /\ gist_id ref = Some (JS.split "/" (JS.get_or (data_id gist) EmptyString))
    /\ gist_sha ref
       = Some (JS.get_or (JS.get_or (nth_error (data_history gist) 0) None)
                 EmptyString)
    /\ gist_url ref <> None.
Proof.
  intros Ht Hp Hres.
  destruct (upload_resolved_inv env w token resultPath ref Ht Hp Hres)
    as [content [results [entries [Hr [Hj Hl]]]]].
  revert Hres.
  rewrite (upload_steps env w token resultPath content results entries
             Ht Hp Hr Hj Hl).
  cbv zeta.
  set (params := {| gp_gist_id := _; gp_files := _ |}).
  destruct (JS.find _ entries) as [entry|].
  - destruct (gists_update w token params) as [gist|] eqn:Ha; [|discriminate].
    intros [= <-]. exists params, gist. simpl.
    repeat split; auto; discriminate.
  - destruct (gists_create w token params) as [gist|] eqn:Ha; [|discriminate].
    intros [= <-]. exists params, gist. simpl.
    repeat split; auto; discriminate.
Qed.

(** X18. The report link built from the reference of a resolved upload
    is the viewer address followed by the id pieces joined by commas, a
    slash and the version answered by the store.  For an id without slash
    that is the id itself; an id [a/b] appears as [a,b]. *)
Theorem report_link_of_upload :
  forall (env : Env) (w : World) (token resultPath : string) (ref : Gist),
    JS.truthy token = true ->
    JS.truthy resultPath = true ->
    outcome (uploadResultToGist env w (Some token) resultPath) = Resolved ref ->
    exists params gist version,
      (gists_update w token params = Some gist
       \/ gists_create w token params = Some gist)
      /\ version = JS.get_or (JS.get_or (nth_error (data_history gist) 0) None)
                     EmptyString
      /\ getLHReportURL ref
         = "https://googlechrome.github.io/lighthouse/viewer/?gist="
             ++ JS.join "," (JS.split "/" (JS.get_or (data_id gist) EmptyString))
             ++ "/" ++ version
      /\ (forall id,
             data_id gist = Some id ->
             JS.includes "/" id = false ->
             getLHReportURL ref
             = "https://googlechrome.github.io/lighthouse/viewer/?gist="
                 ++ id ++ "/" ++ version)
      /\ (forall a b,
             data_id gist = Some (a ++ "/" ++ b) ->
             JS.includes "/" a = false ->
             JS.includes "/" b = false ->
             getLHReportURL ref
             = "https://googlechrome.github.io/lighthouse/viewer/?gist="
                 ++ a ++ "," ++ b ++ "/" ++ version).
Proof.
  intros env w token resultPath ref Ht Hp Hres.
  destruct (upload_resolved_answer env w token resultPath ref Ht Hp Hres)
    as [params [gist [Hanswer [Hid [Hsha Hurl]]]]].
  exists params, gist, (JS.get_or (JS.get_or (nth_error (data_history gist) 0) None)
                          EmptyString).
  split; [exact Hanswer|]. split; [reflexivity|].
  assert (Hlink : getLHReportURL ref
                  = "https://googlechrome.github.io/lighthouse/viewer/?gist="
                      ++ JS.join "," (JS.split "/"
                                        (JS.get_or (data_id gist) EmptyString))
                      ++ "/"
                      ++ JS.get_or
                           (JS.get_or (nth_error (data_history gist) 0) None)
                           EmptyString).
  { destruct (gist_url ref) as [u|] eqn:Hu; [|congruence].
    rewrite (getLHReportURL_of_reference ref u Hu).
    unfold viewerURL. now rewrite Hid, Hsha. }
  split; [exact Hlink|]. split.
  - intros id Hdata Hno. rewrite Hlink, Hdata. simpl JS.get_or.
    now rewrite (split_without_separator "/" id Hno).
  - intros a b Hdata Ha Hb. rewrite Hlink, Hdata. simpl JS.get_or at 1.
    change (a ++ "/" ++ b) with (a ++ String "/" b).
    rewrite (split_app_sep "/" a b Ha), (split_without_separator "/" b Hb).
    simpl JS.join. now rewrite !string_app_assoc.
Qed.

Lemma report_link_of_upload_witness :
  getLHReportURL {| gist_url := Some "https://example.com/a";
                    gist_id := Some ["g42"];
                    gist_sha := Some "v2" |}
  = "https://googlechrome.github.io/lighthouse/viewer/?gist=g42/v2".
Proof.
  destruct (report_link_of_upload Sample.env0 Sample.world0 "pat" "lhr-1.json"
              {| gist_url := Some "https://example.com/a";
                 gist_id := Some ["g42"];
                 gist_sha := Some "v2" |}
              eq_refl eq_refl eq_refl)
    as [params [gist [version [_ [_ [Hlink _]]]]]].
  reflexivity.
Defined.

(** * The missing file of assertion results *)

Lemma outcome_Promise_all3 {A B C : Type} (pa : Promise A) (pb : Promise B)
  (pc : Promise C) (a : A) (b : B) (c : C) :
  outcome pa = Resolved a ->
  outcome pb = Resolved b ->
  outcome pc = Resolved c ->
  outcome (Promise_all3 pa pb pc) = Resolved (a, b, c).
Proof.
  destruct pa as [oa ta], pb as [ob tb], pc as [oc tc].
  unfold outcome. simpl. now intros -> -> ->.
Qed.

(** C7 does not hold as stated: with the file of assertion results
    missing because the whole directory is, and a personal credential set,
    the loader resolves with the empty grouping and the change reference
    resolves, but the listing of the raw results throws and the run
    rejects. *)
Lemma missing_directory_rejects_run :
  existsSync Sample.world_no_dir (lhAssertResultsPath Sample.env0) = false
  /\ outcome (getGroupedAssertionResultsByURL Sample.env0 Sample.world_no_dir)
     = Resolved []
  /\ resolves (getChangesUrl Sample.env0 Sample.world_no_dir (Some "pat"))
     = true
  /\ outcome (run Sample.env0 Sample.input0 Sample.world_no_dir 1)
     = Rejected (FileError "/work/.lighthouseci").
Proof.
  repeat split; vm_compute; reflexivity.
Qed.

(** C7, amended. When the file of assertion results does not exist, the
    loader resolves with the empty grouping (for which no section is
    rendered) instead of rejecting.  A run whose gate is open then still
    resolves the change reference: the calls of [getChangesUrl] are among
    the calls of the run, so with a credential the pull requests are listed.
    The run succeeds exactly when the two other tasks, the change reference
    and the archiving, resolve and every enabled channel accepts what it is
    sent; it rejects when one of them rejects, as it does when a credential
    is set and the directory of the raw results cannot be listed. *)
Theorem missing_results_file :
  forall (env : Env) (input : Input) (w : World) (status : Z),
    existsSync w (lhAssertResultsPath env) = false ->
    outcome (getGroupedAssertionResultsByURL env w) = Resolved []
    /\ (forall st gists, formatAssertResults [] st gists = [])
    /\ (shouldRunOutput input status = true ->
        (exists before after,
            calls (run env input w status)
            = (before ++ calls (getChangesUrl env w (personalGithubToken input))
                 ++ after)%list)
        /\ (forall token,
               personalGithubToken input = Some token ->
               JS.truthy token = true ->
               In (PullsList token (repoOwner env) (repoName env))
                  (calls (run env input w status)))
        /\ (forall changesURL gists,
               outcome (getChangesUrl env w (personalGithubToken input))
                 = Resolved changesURL ->
               outcome (uploadResultsToGist env w (personalGithubToken input))
                 = Resolved gists ->
               resolves (run env input w status)
               = (negb (slackEnabled input)
                  || webhook_send w
                       (JS.get_or (slackWebhookUrl input) EmptyString)
                       [slackHeader status changesURL])
                 && (negb (githubEnabled input)
                     || (checks_createSuite w
                           (JS.get_or (applicationGithubToken input) EmptyString)
                           (repoOwner env) (repoName env) (githubSHA env)
                         && checks_create w
                              (JS.get_or (applicationGithubToken input)
                                 EmptyString)
                              (checkBodyOf env status changesURL gists []))))
        /\ (resolves (getChangesUrl env w (personalGithubToken input)) = true ->
            resolves (uploadResultsToGist env w (personalGithubToken input))
              = true ->
            channelsAnswer w ->
            outcome (run env input w status) = Resolved tt)
        /\ (resolves (getChangesUrl env w (personalGithubToken input)) = false
            \/ resolves (uploadResultsToGist env w (personalGithubToken input))
               = false ->
            resolves (run env input w status) = false)
        /\ (forall token,
               personalGithubToken input = Some token ->
               JS.truthy token = true ->
               readdirSync w (resultsDirPath env) = None ->
               resolves (run env input w status) = false)).
Proof.
  intros env input w status Hmissing.
  pose proof (getGrouped_missing env w Hmissing) as Hgrouped.
  split; [now rewrite Hgrouped|].
  split; [reflexivity|].
  intro Hgate.
  pose proof (run_calls_include_changes env input w status Hgate)
    as [before [after Hcalls]].
  assert (Hrejects :
            resolves (getChangesUrl env w (personalGithubToken input)) = false
            \/ resolves (uploadResultsToGist env w (personalGithubToken input))
               = false ->
            resolves (run env input w status) = false).
  { intro H. apply run_rejects_with_gather; [exact Hgate|].
    unfold gather. rewrite resolves_Promise_all3.
    destruct H as [-> | ->];
      [now rewrite Bool.andb_false_r | apply Bool.andb_false_r]. }
  split; [now exists before, after|].
  split; [|split; [|split; [|split]]].
  - intros token Htok Ht. rewrite Hcalls, Htok.
    apply in_or_app. right. apply in_or_app. left.
    unfold getChangesUrl. simpl JS.truthy_opt. rewrite Ht. simpl negb. cbv iota.
    rewrite calls_await. apply in_or_app. left.
    simpl JS.get_or. destruct (pulls_list w token _ _); simpl; auto.
  - intros changesURL gists Hchanges Hupload.
    assert (Hg : outcome (gather env input w) = Resolved ([], changesURL, gists)).
    { unfold gather. apply outcome_Promise_all3; [|exact Hchanges|exact Hupload].
      now rewrite Hgrouped. }
    rewrite run_guards_body, resolves_logAndRethrow.
    unfold runBody. rewrite Hgate. simpl negb. cbv iota.
    rewrite resolves_await, Hg, resolves_dispatch.
    rewrite slackNotification_exact, githubNotification_exact.
    f_equal; f_equal.
    + unfold resolves, outcome. simpl. now destruct (webhook_send w _ _).
    + destruct (checks_createSuite w _ _ _ _); [|reflexivity].
      unfold resolves, outcome. simpl. now destruct (checks_create w _ _).
  - intros Hchanges Hupload Hch.
    apply resolves_outcome_unit. apply run_resolves; [|exact Hch].
    unfold gather. rewrite resolves_Promise_all3, Hchanges, Hupload.
    now rewrite Hgrouped.
  - exact Hrejects.
  - intros token Htok Ht Hdir. apply Hrejects. right.
    rewrite Htok. unfold uploadResultsToGist, getLHRNameFromPath.
    simpl JS.truthy_opt. rewrite Ht, Hdir. reflexivity.
Qed.

Lemma missing_results_file_witness :
  outcome (run Sample.env0 Sample.input0 Sample.world_empty 1) = Resolved tt
  /\ In (PullsList "pat" (Some "octo") (Some "site"))
        (calls (run Sample.env0 Sample.input0 Sample.world_empty 1))
  /\ resolves (run Sample.env0 Sample.input0 Sample.world_no_dir 1) = false.
Proof.
  destruct (missing_results_file Sample.env0 Sample.input0
              Sample.world_empty 1 eq_refl)
    as [_ [_ Hrun]].
  destruct (Hrun eq_refl) as [_ [Hpulls [_ [Hres _]]]].
  destruct (missing_results_file Sample.env0 Sample.input0
              Sample.world_no_dir 1 eq_refl)
    as [_ [_ Hrun']].
  destruct (Hrun' eq_refl) as [_ [_ [_ [_ [_ Hdir]]]]].
  split; [|split].
  - apply Hres; [reflexivity | reflexivity |].
    repeat split; reflexivity.
  - exact (Hpulls "pat" eq_refl eq_refl).
  - exact (Hdir "pat" eq_refl eq_refl eq_refl).
Defined.
